(** * sphc: a catalogue of test functions on the unit sphere

    Shallow embedding of [include/functions.h].  The header is a set of
    function templates over a floating-point type [Float]; the embedding
    keeps the template parameter as a type class [FloatOps], read here at
    two types:
    - the reals, where every arithmetic operation on [Float] and every
      function of [<cmath>] is exact (no rounding);
    - the partial reals, where an operation outside its domain is an
      error; this reading states that an entry is total.
    Constants keep the value the compiler gives them.  A literal with
    suffix [f] has type [float] whatever [Float] is, so it denotes the
    binary32 number nearest to its decimal ([Binary32.round]); an
    operation between two such constants, as in [2.0f / F_PI] or
    [9999.0f / 10000.0f], is an operation on [float], whose result is the
    binary32 number nearest to the exact result.  An integer literal is
    converted exactly. *)

From Stdlib Require Import Reals QArith Qreals ZArith List Lra Lia.
From Stdlib Require Import Floats.SpecFloat.
Import ListNotations.

(** ** Literals with suffix [f] *)

Module Binary32.

(** Nearest integer to [n / d] ([0 <= n], [0 < d]), ties to even. *)
Definition round_half_even (n d : Z) : Z :=
  let q := (n / d)%Z in
  match (2 * (n mod d) ?= d)%Z with
  | Lt => q
  | Gt => (q + 1)%Z
  | Eq => if Z.even q then q else (q + 1)%Z
  end.

(** [n / d] scaled by [2 ^ (- e)], as a numerator and a denominator. *)
Definition scaled_num (n e : Z) : Z := (n * 2 ^ Z.max 0 (- e))%Z.
Definition scaled_den (d e : Z) : Z := (d * 2 ^ Z.max 0 e)%Z.

(** The exponent [e] of the unit in the last place of [n / d]:
    [2 ^ 23 <= (n / d) * 2 ^ (- e) < 2 ^ 24], and not below the
    exponent [-149] of the subnormal numbers. *)
Definition ulp_exponent (n d : Z) : Z :=
  let e0 := (Z.log2 n - Z.log2 d - 23)%Z in
  let e := if (scaled_num n e0 <? 2 ^ 23 * scaled_den d e0)%Z
           then (e0 - 1)%Z else e0 in
  Z.max e (- 149).

(** The binary32 number nearest to a non-negative rational (round to
    nearest, ties to even).  Every literal of the header is far below
    the overflow threshold, which is not modelled. *)
Definition round (q : Q) : Q :=
  let n := Qnum q in
  let d := Zpos (Qden q) in
  if (n <=? 0)%Z then 0%Q
  else
    let e := ulp_exponent n d in
    let m := round_half_even (scaled_num n e) (scaled_den d e) in
    Qred (Qmake (m * 2 ^ Z.max 0 e) (Z.to_pos (2 ^ Z.max 0 (- e)))).

End Binary32.

(** ** The template parameters *)

(** [template <typename T>] of [sgn]: a type with [T(0)], [<] and [==]. *)
Class Ordered (T : Type) := {
  T0 : T;
  lt : T -> T -> bool;
  eq : T -> T -> bool
}.

(** [template <typename Float>]: the operations the function bodies use.
    [f32 q] is the binary32 number nearest to [q], converted to [Float]:
    the literal [q] written with suffix [f] when [q] is a decimal, and the
    result of an operation on two [float]s when [q] is its exact result.
    [of_int] is the conversion of an [int]. *)
Class FloatOps (Float : Type) := {
  f32 : Q -> Float;
  of_int : Z -> Float;
  fadd : Float -> Float -> Float;
  fsub : Float -> Float -> Float;
  fmul : Float -> Float -> Float;
  fdiv : Float -> Float -> Float;
  fneg : Float -> Float;
  flt : Float -> Float -> bool;
  feq : Float -> Float -> bool;
  fsin : Float -> Float;
  fcos : Float -> Float;
  fatan : Float -> Float;
  ftanh : Float -> Float;
  fexp : Float -> Float;
  fsqrt : Float -> Float;
  fabs : Float -> Float;
  fpow : Float -> Float -> Float
}.

Arguments f32 {Float _} _%_Q.
Arguments of_int {Float _} _%_Z.

#[export] Instance Float_Ordered {Float : Type} `{FloatOps Float} : Ordered Float :=
  {| T0 := of_int 0; lt := flt; eq := feq |}.

Declare Scope float_scope.
Delimit Scope float_scope with flt.
Notation "a + b" := (fadd a b) : float_scope.
Notation "a - b" := (fsub a b) : float_scope.
Notation "a * b" := (fmul a b) : float_scope.
Notation "a / b" := (fdiv a b) : float_scope.
Notation "- a" := (fneg a) : float_scope.

(** ** The header *)

Module sphc.

(** The macro [F_PI] as the [float] it is, for the places where it meets
    another [float]. *)
Definition F_PI_float : Q := Binary32.round 3.14159265358979323846.

Section Templates.

Context {Float : Type} `{FloatOps Float}.
Local Open Scope float_scope.

Definition F_PI : Float := f32 3.14159265358979323846.
Definition F_PI_2 : Float := f32 1.570796327.
Definition F_INV_PI : Float := f32 0.31830988618379067154.
Definition F_INV_TWOPI : Float := f32 0.15915494309189533577.

(** *** Internal helper functions *)

Definition spherical_to_xyz (theta phi : Float) : Float * Float * Float :=
  let x := fsin theta * fcos phi in
  let y := fsin theta * fsin phi in
  let z := fcos theta in
  (x, y, z).

Definition dot (x1 y1 z1 x2 y2 z2 : Float) : Float :=
  x1 * x2 + y1 * y2 + z1 * z2.

End Templates.

(** [(T(0) < val) - (val < T(0))], the two [bool]s promoted to [int]. *)
Definition sgn {T : Type} `{Ordered T} (val : T) : Z :=
  (Z.b2z (lt T0 val) - Z.b2z (lt val T0))%Z.

Section Catalogue.

Context {Float : Type} `{FloatOps Float}.
Local Open Scope float_scope.

Definition fornberg_f1 (theta phi : Float) : Float :=
  let '(x, y, z) := spherical_to_xyz theta phi in
  f32 1.0 + x + y * y + x * x * y + x * x * x * x + y * y * y * y * y
  + x * x * y * y * z * z.

Definition fornberg_f4 (theta phi : Float) : Float :=
  let '(x, y, z) := spherical_to_xyz theta phi in
  (f32 1.0 + of_int (sgn (- f32 9.0 * x - f32 9.0 * y + f32 9.0 * z)))
  / f32 9.0.

Definition beentjes_f3 (theta phi : Float) : Float :=
  let alpha := f32 9.0 in
  let '(x, y, z) := spherical_to_xyz theta phi in
  (f32 1.0 + ftanh (- alpha * x - alpha * y + alpha * z)) / alpha.

Definition beentjes_f4 (theta phi : Float) : Float :=
  let alpha := f32 9.0 in
  let '(x, y, z) := spherical_to_xyz theta phi in
  (f32 1.0 - of_int (sgn (x + y - z))) / alpha.

Definition beentjes_f5 (theta phi : Float) : Float :=
  let alpha := f32 9.0 in
  let '(x, y, z) := spherical_to_xyz theta phi in
  (f32 1.0 - of_int (sgn (F_PI * x + y))) / alpha.

Definition renka_f3 (theta phi : Float) : Float :=
  let '(x, y, z) := spherical_to_xyz theta phi in
  fabs ((f32 1.25 + fcos (f32 5.4 * y)) * fcos (f32 6.0 * z)
        / (f32 6.0 + f32 6.0 * (f32 3.0 * x - of_int 1)
                     * (f32 3.0 * x - of_int 1))).

Definition renka_f4 (theta phi : Float) : Float :=
  let '(x, y, z) := spherical_to_xyz theta phi in
  fexp (- f32 (Binary32.round 81.0 / Binary32.round 16.0)
        * (fpow (x - f32 0.5) (f32 2.0) + fpow (y - f32 0.5) (f32 2.0)
           + fpow (z - f32 0.5) (f32 2.0))) / f32 3.0.

Definition renka_f5 (theta phi : Float) : Float :=
  let '(x, y, z) := spherical_to_xyz theta phi in
  fexp (- f32 (Binary32.round 81.0 / Binary32.round 4.0)
        * (fpow (x - f32 0.5) (f32 2.0) + fpow (y - f32 0.5) (f32 2.0)
           + fpow (z - f32 0.5) (f32 2.0))) / f32 3.0.

Definition reegar_f3 (theta phi : Float) : Float :=
  let '(x, y, z) := spherical_to_xyz theta phi in
  (F_PI_2
   + fatan (f32 300.0
            * (z - f32 (Binary32.round 9999.0 / Binary32.round 10000.0))))
  / F_PI.

Definition bellet_f4 (theta phi : Float) : Float :=
  let '(x, y, z) := spherical_to_xyz theta phi in
  f32 0.5 * (f32 1.0 + of_int (sgn (x - f32 0.5))).

Definition reegar_f2 (theta phi : Float) : Float :=
  let '(x, y, z) := spherical_to_xyz theta phi in
  f32 (Binary32.round 2.0 / F_PI_float) * fatan z.

Definition reegar_f4 (theta phi : Float) : Float :=
  let '(x, y, z) := spherical_to_xyz theta phi in
  f32 0.5
  + fatan (f32 1000.0
           * (z - f32 9999.0
                  / (f32 (Binary32.round 10000.0 * Binary32.round 2.0)
                     * fsqrt (of_int 2)))) / F_PI.

Definition franke (theta phi : Float) : Float :=
  let '(x, y, z) := spherical_to_xyz theta phi in
  f32 0.75 * fexp (- (f32 9.0 * x - f32 2.0) * (f32 9.0 * x - f32 2.0) / f32 4.0
                   - (f32 9.0 * y - f32 2.0) * (f32 9.0 * y - f32 2.0) / f32 4.0
                   - (f32 9.0 * z - f32 2.0) * (f32 9.0 * z - f32 2.0) / f32 4.0)
  + f32 0.75 * fexp (- (f32 9.0 * x + f32 1.0) * (f32 9.0 * x + f32 1.0) / f32 49.0
                     - (f32 9.0 * y + f32 1.0) / f32 10.0
                     - (f32 9.0 * z + f32 1.0) / f32 10.0)
  + f32 0.5 * fexp (- (f32 9.0 * x - f32 7.0) * (f32 9.0 * x - f32 7.0) / f32 4.0
                    - (f32 9.0 * y - f32 3.0) * (f32 9.0 * y - f32 3.0) / f32 4.0
                    - (f32 9.0 * z - f32 5.0) * (f32 9.0 * z - f32 5.0) / f32 4.0)
  - f32 0.2 * fexp (- (f32 9.0 * x - f32 4.0) * (f32 9.0 * x - f32 4.0)
                    - (f32 9.0 * y - f32 7.0) * (f32 9.0 * y - f32 7.0)
                    - (f32 9.0 * z - f32 5.0) * (f32 9.0 * z - f32 5.0)).

(** *** Custom designed functions *)

Definition cf_f1 (theta phi : Float) : Float :=
  fabs (fsin (fcos (f32 2.0 * phi) - f32 2.0 * theta))
  + fabs (fcos (f32 2.0 * theta)).

Definition cf_f2 (theta phi : Float) : Float :=
  fabs (fsin (f32 2.0 * phi - theta)) + fabs (fcos (f32 2.0 * theta)).

Definition cf_f3 (theta phi : Float) : Float :=
  f32 1.0 + fsin (f32 5.0 * phi) / f32 5.0.

Definition cf_f4 (theta phi : Float) : Float :=
  f32 1.0 + fcos (f32 5.0 * phi) / f32 5.0 + fsin (f32 5.0 * theta).

Definition cf_f5 (theta phi : Float) : Float :=
  fexp (f32 2.0 * dot (fsin theta * fcos phi) (fsin theta * fsin phi)
                      (fcos theta) (- f32 1.0) (- f32 1.0) (f32 0.8))
  + fexp (f32 1.5 * dot (fsin theta * fcos phi) (fsin theta * fsin phi)
                        (fcos theta) (f32 1.0) (- f32 1.0) (f32 0.8))
  + fexp theta
  + f32 10.0 * fexp (dot (fsin theta * fcos phi) (fsin theta * fsin phi)
                         (fcos theta) (f32 0.8) (f32 0.3) (- f32 4.0)
                     - f32 1.0)
  + f32 4.0 * fabs (fcos (f32 45.0 * theta + f32 45.0 * phi)).

Definition cf_f6 (theta phi : Float) : Float :=
  f32 1.0 + f32 0.5 * fcos theta + f32 0.3 * fcos (f32 2.0 * phi).

Definition cf_f7 (theta phi : Float) : Float :=
  let '(x, y, z) := spherical_to_xyz theta phi in
  fabs (fcos (f32 3.0 * x) + fsin (f32 2.0 * y) + f32 0.5 * z * z).

Definition cf_f8 (theta phi : Float) : Float :=
  let '(x, y, z) := spherical_to_xyz theta phi in
  fabs (fsin (f32 2.0 * x) * fcos (f32 3.0 * y) + f32 0.5 * z * z
        + f32 0.3 * fsin (f32 5.0 * x) * fcos (f32 4.0 * z)).

Definition cf_f9 (theta phi : Float) : Float :=
  let '(x, y, z) := spherical_to_xyz theta phi in
  fabs (x * x - y * y + f32 0.5 * x * z - f32 0.3 * y * z).

Definition cf_f10 (theta phi : Float) : Float :=
  let '(x, y, z) := spherical_to_xyz theta phi in
  x * x + y * y + z * z + of_int 5
  + f32 2.5 * fcos ((theta - F_PI) / f32 2.0) * fsin (f32 16.0 * theta).

Definition cf_f11 (theta phi : Float) : Float :=
  let '(x, y, z) := spherical_to_xyz theta phi in
  fabs (fsin (f32 10.0 * x) * fcos (f32 12.0 * y) * fsin (f32 15.0 * z)
        + fcos (f32 20.0 * x)).

Definition cf_f12 (theta phi : Float) : Float :=
  let '(x, y, z) := spherical_to_xyz theta phi in
  fsin (f32 10.0 * x) + fcos (f32 12.0 * y) - fsin (f32 15.0 * z)
  + f32 0.2 * fcos (f32 18.0 * x) + f32 3.0.

Definition cf_f13 (theta phi : Float) : Float :=
  let '(x, y, z) := spherical_to_xyz theta phi in
  fexp (- fsin (f32 5.0 * x) - fcos (f32 6.0 * y))
  + f32 0.3 * fsin (f32 10.0 * z).

Definition cf_f14 (theta phi : Float) : Float :=
  let '(x, y, z) := spherical_to_xyz theta phi in
  fexp (- f32 2.0 * (x * x + y * y)) * fsin (f32 4.0 * z).

Definition cf_15 (theta phi : Float) : Float :=
  let '(x, y, z) := spherical_to_xyz theta phi in
  (x * x + y * y) * fexp (- f32 3.0 * z * z).

(** Every entry of the catalogue, in the order of the header. *)
Definition catalogue : list (Float -> Float -> Float) :=
  [ fornberg_f1; fornberg_f4; beentjes_f3; beentjes_f4; beentjes_f5;
    renka_f3; renka_f4; renka_f5; reegar_f3; bellet_f4; reegar_f2;
    reegar_f4; franke;
    cf_f1; cf_f2; cf_f3; cf_f4; cf_f5; cf_f6; cf_f7; cf_f8; cf_f9; cf_f10;
    cf_f11; cf_f12; cf_f13; cf_f14; cf_15 ].

End Catalogue.
End sphc.

(** ** Instantiation at the exact reals *)

Local Open Scope R_scope.

Definition Rltb (a b : R) : bool := if Rlt_dec a b then true else false.
Definition Reqb (a b : R) : bool := if Req_dec_T a b then true else false.

(** [std::pow]: an integral exponent is a repeated product (or its
    inverse); for any other exponent a zero base gives zero and a positive
    base goes through [exp] and [ln]. *)
Definition is_integral (e : R) : bool := Reqb (IZR (Int_part e)) e.

Definition Rpow (b e : R) : R :=
  if is_integral e then powerRZ b (Int_part e)
  else if Reqb b 0 then 0
  else Rpower b e.

#[export] Instance Real_FloatOps : FloatOps R := {|
  f32 q := Q2R (Binary32.round q);
  of_int := IZR;
  fadd := Rplus;
  fsub := Rminus;
  fmul := Rmult;
  fdiv := Rdiv;
  fneg := Ropp;
  flt := Rltb;
  feq := Reqb;
  fsin := sin;
  fcos := cos;
  fatan := atan;
  ftanh := tanh;
  fexp := exp;
  fsqrt := sqrt;
  fabs := Rabs;
  fpow := Rpow
|}.

(** ** Instantiation at the partial reals

    [None] is the result of an operation outside its domain over the
    reals: a division by zero, the square root of a negative number, a
    power of a negative base with an exponent that is not integral or of
    zero with a negative exponent.  [None] propagates through every
    arithmetic operation, and compares false with everything. *)

Definition PReal : Type := option R.

Definition lift2 (f : R -> R -> R) (a b : PReal) : PReal :=
  match a, b with
  | Some x, Some y => Some (f x y)
  | _, _ => None
  end.

Definition test2 (f : R -> R -> bool) (a b : PReal) : bool :=
  match a, b with
  | Some x, Some y => f x y
  | _, _ => false
  end.

Definition pdiv (a b : PReal) : PReal :=
  match a, b with
  | Some x, Some y => if Reqb y 0 then None else Some (x / y)
  | _, _ => None
  end.

Definition psqrt (a : PReal) : PReal :=
  match a with
  | Some x => if Rltb x 0 then None else Some (sqrt x)
  | None => None
  end.

Definition ppow (a b : PReal) : PReal :=
  match a, b with
  | Some x, Some e =>
      if Reqb x 0 && Rltb e 0 then None
      else if Rltb x 0 && negb (is_integral e) then None
      else Some (Rpow x e)
  | _, _ => None
  end.

#[export] Instance Partial_FloatOps : FloatOps PReal := {|
  f32 q := Some (Q2R (Binary32.round q));
  of_int n := Some (IZR n);
  fadd := lift2 Rplus;
  fsub := lift2 Rminus;
  fmul := lift2 Rmult;
  fdiv := pdiv;
  fneg := option_map Ropp;
  flt := test2 Rltb;
  feq := test2 Reqb;
  fsin := option_map sin;
  fcos := option_map cos;
  fatan := option_map atan;
  ftanh := option_map tanh;
  fexp := option_map exp;
  fsqrt := psqrt;
  fabs := option_map Rabs;
  fpow := ppow
|}.

(** ** Other instantiations of [sgn] *)

#[export] Instance Int_Ordered : Ordered Z :=
  {| T0 := 0%Z; lt := Z.ltb; eq := Z.eqb |}.

(** IEEE 754 numbers with their comparisons: [T(0)] is [+0]; a NaN
    compares false with everything. *)
#[export] Instance IEEE_Ordered : Ordered spec_float :=
  {| T0 := S754_zero false; lt := SFltb; eq := SFeqb |}.

(** What makes the type of [sgn] an ordered one: [<] is asymmetric, and
    two equal values are not related by [<]. *)
Class OrderedLaws (T : Type) `{Ordered T} : Prop := {
  lt_asym : forall a b : T, lt a b = true -> lt b a = false;
  eq_not_lt : forall a b : T, eq a b = true -> lt a b = false /\ lt b a = false
}.

(** ** Gaussian terms *)

(** A weighted Gaussian over the coordinates scaled by 9: the centre is
    [(cx, cy, cz)] in the scaled coordinates, and the quadratic form is
    [ax X^2 + ay Y^2 + az Z^2]. *)
Record gaussian : Type := {
  weight : R;
  cx : R; cy : R; cz : R;
  ax : R; ay : R; az : R
}.

Definition gaussian_at (g : gaussian) (p : R * R * R) : R :=
  let '(x, y, z) := p in
  weight g * exp (- (ax g * (9 * x - cx g) ^ 2 + ay g * (9 * y - cy g) ^ 2
                     + az g * (9 * z - cz g) ^ 2)).

Definition positive_definite (g : gaussian) : Prop :=
  0 < ax g /\ 0 < ay g /\ 0 < az g.

(** The four terms of [franke]; the second is written in the header with
    [y] and [z] entering linearly and is a Gaussian on the sphere only,
    where [x^2 + y^2 + z^2 = 1]. *)
Definition franke_term1 : gaussian :=
  {| weight := f32 0.75; cx := 2; cy := 2; cz := 2;
     ax := / 4; ay := / 4; az := / 4 |}.
Definition franke_term2 : gaussian :=
  {| weight := f32 0.75 * exp (81 / 20 - 1 / 10 + 20 / 3381 - 1 / 49);
     cx := - 20 / 69; cy := - 1; cz := - 1;
     ax := 69 / 980; ay := / 20; az := / 20 |}.
Definition franke_term3 : gaussian :=
  {| weight := f32 0.5; cx := 7; cy := 3; cz := 5;
     ax := / 4; ay := / 4; az := / 4 |}.
Definition franke_term4 : gaussian :=
  {| weight := - f32 0.2; cx := 4; cy := 7; cz := 5;
     ax := 1; ay := 1; az := 1 |}.

(** ** Ranges of the functions with a jump *)

(** [f] takes at most the two values [a] and [b]. *)
Definition two_valued (a b : R) (f : R -> R -> R) : Prop :=
  forall theta phi : R, f theta phi = a \/ f theta phi = b.

(** [f] takes the three values [0], [c] and [2 c], and no other. *)
Definition three_valued (c : R) (f : R -> R -> R) : Prop :=
  (forall theta phi : R,
      f theta phi = 0 \/ f theta phi = c \/ f theta phi = 2 * c)
  /\ (exists theta phi : R, f theta phi = 0)
  /\ (exists theta phi : R, f theta phi = c)
  /\ (exists theta phi : R, f theta phi = 2 * c).

(** ** Periodicity in the azimuthal angle *)

Definition periodic (f : R -> R -> R) : Prop :=
  forall theta phi : R, f theta (phi + 2 * PI) = f theta phi.

(** ** Totality *)

(** On real arguments the entry [fp], read over the partial reals, returns
    a real, the one its reading [fr] over the reals returns. *)
Definition total_on_reals (fp : PReal -> PReal -> PReal) (fr : R -> R -> R)
  : Prop :=
  forall theta phi : R, fp (Some theta) (Some phi) = Some (fr theta phi).

(** The denominator of [renka_f3] at the point [(x, y, z)]. *)
Definition renka_f3_denominator (x : R) : R :=
  6 + 6 * (3 * x - 1) * (3 * x - 1).

(** ** The poles *)

(** The entries that read [phi] through the coordinate transform only. *)
Definition transform_entries : list (R -> R -> R) :=
  [ sphc.fornberg_f1; sphc.fornberg_f4; sphc.beentjes_f3; sphc.beentjes_f4;
    sphc.beentjes_f5; sphc.renka_f3; sphc.renka_f4; sphc.renka_f5;
    sphc.reegar_f3; sphc.bellet_f4; sphc.reegar_f2; sphc.reegar_f4;
    sphc.franke;
    sphc.cf_f7; sphc.cf_f8; sphc.cf_f9; sphc.cf_f10; sphc.cf_f11;
    sphc.cf_f12; sphc.cf_f13; sphc.cf_f14; sphc.cf_15 ].

(** [f] has one value at each pole, whatever the azimuthal angle. *)
Definition single_valued_at_poles (f : R -> R -> R) : Prop :=
  forall phi phi' : R, f 0 phi = f 0 phi' /\ f PI phi = f PI phi'.

(** ** The arguments of [sgn] *)

(** The argument of [sgn] in [beentjes_f4]; that of [fornberg_f4] is
    [-9] times it.  [beentjes_f3] takes [tanh] of the latter. *)
Definition beentjes_f4_argument (theta phi : R) : R :=
  let '(x, y, z) := sphc.spherical_to_xyz theta phi in x + y - z.

Definition beentjes_f5_argument (theta phi : R) : R :=
  let '(x, y, z) := sphc.spherical_to_xyz theta phi in sphc.F_PI * x + y.

Definition bellet_f4_argument (theta phi : R) : R :=
  let '(x, y, z) := sphc.spherical_to_xyz theta phi in x - f32 0.5.

(** Evaluation of the literals met in a goal. *)
Ltac f32_eval :=
  repeat match goal with
  | |- context [Binary32.round ?q] =>
      let v := eval vm_compute in (Binary32.round q) in
      change (Binary32.round q) with v
  end;
  unfold Q2R; cbn [Qnum Qden]; rewrite ?Rinv_1, ?Rmult_1_r.

Ltac unfold_real :=
  cbn [f32 of_int fadd fsub fmul fdiv fneg flt feq fsin fcos fatan ftanh fexp
       fsqrt fabs fpow Real_FloatOps T0 lt eq Float_Ordered].

(** The literals of the header that binary32 does not hold exactly, with
    the values they denote; a literal such as [9.0f], [0.75f] or
    [10000.0f] denotes its decimal. *)
Example inexact_literals :
  Binary32.round 3.14159265358979323846 = (13176795 # 4194304)%Q
  /\ Binary32.round 1.570796327 = (13176795 # 8388608)%Q
  /\ Binary32.round 5.4 = (11324621 # 2097152)%Q
  /\ Binary32.round 0.8 = (13421773 # 16777216)%Q
  /\ Binary32.round 0.3 = (5033165 # 16777216)%Q
  /\ Binary32.round 0.2 = (13421773 # 67108864)%Q.
Proof. repeat split; vm_compute; reflexivity. Qed.

Example exact_literals :
  Binary32.round 9.0 = 9%Q /\ Binary32.round 0.75 = (3 # 4)%Q
  /\ Binary32.round 1.25 = (5 # 4)%Q /\ Binary32.round 10000.0 = 10000%Q
  /\ Binary32.round 9999.0 = 9999%Q /\ Binary32.round 2.5 = (5 # 2)%Q.
Proof. repeat split; vm_compute; reflexivity. Qed.

(** The value of [F_PI]: [3.1415927410125732421875]. *)
Lemma F_PI_value : sphc.F_PI = 13176795 / 4194304.
Proof. unfold sphc.F_PI. unfold_real. f32_eval. lra. Qed.

(** ** Auxiliary facts *)

Import sphc.

Lemma Rltb_true (a b : R) : a < b -> Rltb a b = true.
Proof. intros Hab. unfold Rltb. destruct (Rlt_dec a b); [reflexivity | contradiction]. Qed.

Lemma Rltb_false (a b : R) : b <= a -> Rltb a b = false.
Proof. intros Hab. unfold Rltb. destruct (Rlt_dec a b); [lra | reflexivity]. Qed.

Lemma Reqb_true (a b : R) : a = b -> Reqb a b = true.
Proof. intros Hab. unfold Reqb. destruct (Req_dec_T a b); [reflexivity | contradiction]. Qed.

Lemma Reqb_false (a b : R) : a <> b -> Reqb a b = false.
Proof. intros Hab. unfold Reqb. destruct (Req_dec_T a b); [contradiction | reflexivity]. Qed.

Lemma Rltb_inv (a b : R) : Rltb a b = true -> a < b.
Proof. unfold Rltb. destruct (Rlt_dec a b); [trivial | discriminate]. Qed.

Lemma Reqb_inv (a b : R) : Reqb a b = true -> a = b.
Proof. unfold Reqb. destruct (Req_dec_T a b); [trivial | discriminate]. Qed.

(** The point returned by the coordinate transform is on the unit sphere. *)
Lemma unit_sphere (theta phi : R) :
  (sin theta * cos phi) * (sin theta * cos phi)
  + (sin theta * sin phi) * (sin theta * sin phi)
  + cos theta * cos theta = 1.
Proof.
  pose proof (sin2_cos2 theta) as Ht. pose proof (sin2_cos2 phi) as Hp.
  unfold Rsqr in Ht, Hp.
  replace 1 with (sin theta * sin theta * (sin phi * sin phi + cos phi * cos phi)
                  + cos theta * cos theta) by (rewrite Hp; lra).
  ring.
Qed.

(** ** The coordinate transform *)

(** C1: over the reals, [spherical_to_xyz theta phi] is exactly
    [(sin theta cos phi, sin theta sin phi, cos theta)], and the returned
    triple satisfies [x^2 + y^2 + z^2 = 1]. *)
Theorem spherical_to_xyz_spec (theta phi : R) :
  spherical_to_xyz theta phi
  = (sin theta * cos phi, sin theta * sin phi, cos theta)
  /\ (let '(x, y, z) := spherical_to_xyz theta phi in
      x ^ 2 + y ^ 2 + z ^ 2 = 1).
Proof.
  split; [reflexivity |].
  unfold spherical_to_xyz. unfold_real.
  rewrite <- (unit_sphere theta phi). ring.
Qed.

(** ** The sign helper *)

Section Sign.

Context {T : Type} `{OrderedLaws T}.

Lemma sgn_pos (v : T) : lt T0 v = true -> sgn v = 1%Z.
Proof. intros Hv. unfold sgn. rewrite Hv, (lt_asym _ _ Hv). reflexivity. Qed.

Lemma sgn_neg (v : T) : lt v T0 = true -> sgn v = (- 1)%Z.
Proof. intros Hv. unfold sgn. rewrite Hv, (lt_asym _ _ Hv). reflexivity. Qed.

Lemma sgn_zero (v : T) : eq v T0 = true -> sgn v = 0%Z.
Proof.
  intros Hv. unfold sgn.
  destruct (eq_not_lt _ _ Hv) as [-> ->]. reflexivity.
Qed.

End Sign.

#[export] Instance Int_OrderedLaws : OrderedLaws Z.
Proof.
  split; cbn [lt eq Int_Ordered]; intros a b Hab.
  - apply Z.ltb_lt in Hab. apply Z.ltb_ge. lia.
  - apply Z.eqb_eq in Hab. subst b. rewrite Z.ltb_irrefl. split; reflexivity.
Qed.

#[export] Instance Real_OrderedLaws : OrderedLaws R.
Proof.
  split; cbn [lt eq Float_Ordered flt feq Real_FloatOps]; intros a b Hab.
  - apply Rltb_inv in Hab. apply Rltb_false. lra.
  - apply Reqb_inv in Hab. subst b. split; apply Rltb_false; lra.
Qed.

Lemma SFcompare_antisym (a b : spec_float) :
  SFcompare b a = option_map CompOpp (SFcompare a b).
Proof.
  destruct a as [sa | sa | | sa ma ea], b as [sb | sb | | sb mb eb];
    cbn [SFcompare option_map]; try reflexivity;
    try (destruct sa; reflexivity); try (destruct sb; reflexivity);
    try (destruct sa, sb; reflexivity).
  rewrite (Z.compare_antisym ea eb).
  change (PosDef.Pos.compare_cont Eq mb ma) with (Pos.compare mb ma).
  change (PosDef.Pos.compare_cont Eq ma mb) with (Pos.compare ma mb).
  rewrite (Pos.compare_antisym ma mb).
  destruct sa, sb, (ea ?= eb)%Z, (ma ?= mb)%positive; reflexivity.
Qed.

#[export] Instance IEEE_OrderedLaws : OrderedLaws spec_float.
Proof.
  split; cbn [lt eq IEEE_Ordered]; unfold SFltb, SFeqb; intros a b;
    rewrite (SFcompare_antisym a b);
    destruct (SFcompare a b) as [[ | | ] | ]; cbn; try discriminate; auto.
Qed.

(** C4: for a value [v] of an ordered type, [sgn v] is [1] when [v > 0],
    [-1] when [v < 0] and [0] when [v == 0]; on IEEE numbers it is [0]
    for a NaN, which compares false under [<] both ways. *)
Theorem sgn_spec (T : Type) `{OrderedLaws T} (v : T) :
  (lt T0 v = true -> sgn v = 1%Z)
  /\ (lt v T0 = true -> sgn v = (- 1)%Z)
  /\ (eq v T0 = true -> sgn v = 0%Z)
  /\ (lt T0 S754_nan = false /\ lt S754_nan T0 = false
      /\ sgn S754_nan = 0%Z).
Proof.
  split; [exact (sgn_pos v) |].
  split; [exact (sgn_neg v) |].
  split; [exact (sgn_zero v) |].
  repeat split; reflexivity.
Qed.

(** The case [v > 0] on the IEEE number [1.5], the case [v < 0] on [-2]
    and the case [v == 0] on [-0]. *)
Lemma sgn_spec_witness :
  sgn (S754_finite false 3 (- 1)) = 1%Z
  /\ sgn (S754_finite true 1 1) = (- 1)%Z
  /\ sgn (S754_zero true) = 0%Z.
Proof.
  split; [| split].
  - exact (proj1 (sgn_spec spec_float (S754_finite false 3 (- 1))) eq_refl).
  - exact (proj1 (proj2 (sgn_spec spec_float (S754_finite true 1 1))) eq_refl).
  - exact (proj1 (proj2 (proj2 (sgn_spec spec_float (S754_zero true)))) eq_refl).
Defined.

(** ** Fornberg's functions *)

(** C7: [fornberg_f1 theta phi] is
    [1 + x + y^2 + x^2 y + x^4 + y^5 + x^2 y^2 z^2] at the point
    [(x, y, z)] of the coordinate transform, and [fornberg_f1 0 0 = 1]. *)
Theorem fornberg_f1_spec :
  (forall theta phi : R,
      let '(x, y, z) := spherical_to_xyz theta phi in
      fornberg_f1 theta phi
      = 1 + x + y ^ 2 + x ^ 2 * y + x ^ 4 + y ^ 5 + x ^ 2 * y ^ 2 * z ^ 2)
  /\ spherical_to_xyz 0 0 = (0, 0, 1)
  /\ fornberg_f1 0 0 = 1.
Proof.
  assert (Hf : forall theta phi : R,
             let '(x, y, z) := spherical_to_xyz theta phi in
             fornberg_f1 theta phi
             = 1 + x + y ^ 2 + x ^ 2 * y + x ^ 4 + y ^ 5
               + x ^ 2 * y ^ 2 * z ^ 2).
  { intros theta phi. unfold fornberg_f1, spherical_to_xyz. unfold_real.
    f32_eval. field. }
  assert (Hp : spherical_to_xyz 0 0 = (0, 0, 1) :> R * R * R).
  { unfold spherical_to_xyz. unfold_real. rewrite sin_0, cos_0.
    apply f_equal2; [apply f_equal2 |]; lra. }
  split; [exact Hf |]. split; [exact Hp |].
  specialize (Hf 0 0). rewrite Hp in Hf. rewrite Hf. ring.
Qed.

(** ** The functions with a jump *)

Lemma sgn_real_cases (r : R) :
  (r < 0 /\ sgn r = (- 1)%Z) \/ (r = 0 /\ sgn r = 0%Z) \/ (0 < r /\ sgn r = 1%Z).
Proof.
  destruct (Rtotal_order r 0) as [Hr | [Hr | Hr]].
  - left. split; [exact Hr |]. apply sgn_neg. apply Rltb_true. exact Hr.
  - right; left. split; [exact Hr |]. apply sgn_zero. apply Reqb_true. exact Hr.
  - right; right. split; [exact Hr |]. apply sgn_pos. apply Rltb_true. exact Hr.
Qed.

Ltac sgn_cases :=
  match goal with
  | |- context [sgn ?r] =>
      destruct (sgn_real_cases r) as [[_ ->] | [[_ ->] | [_ ->]]]
  end.

Ltac sgn_at Hr :=
  match goal with
  | |- context [sgn ?r] =>
      destruct (sgn_real_cases r) as [[Hr ->] | [[Hr ->] | [Hr ->]]]
  end.

Lemma fornberg_f4_range (theta phi : R) :
  fornberg_f4 theta phi = 0 \/ fornberg_f4 theta phi = 1 / 9
  \/ fornberg_f4 theta phi = 2 * (1 / 9).
Proof.
  unfold fornberg_f4, spherical_to_xyz. unfold_real. f32_eval.
  sgn_cases; [left | right; left | right; right]; lra.
Qed.

Lemma beentjes_f4_range (theta phi : R) :
  beentjes_f4 theta phi = 0 \/ beentjes_f4 theta phi = 1 / 9
  \/ beentjes_f4 theta phi = 2 * (1 / 9).
Proof.
  unfold beentjes_f4, spherical_to_xyz. unfold_real. f32_eval.
  sgn_cases; [right; right | right; left | left]; lra.
Qed.

Lemma beentjes_f5_range (theta phi : R) :
  beentjes_f5 theta phi = 0 \/ beentjes_f5 theta phi = 1 / 9
  \/ beentjes_f5 theta phi = 2 * (1 / 9).
Proof.
  unfold beentjes_f5, spherical_to_xyz. unfold_real. f32_eval.
  sgn_cases; [right; right | right; left | left]; lra.
Qed.

Lemma bellet_f4_range (theta phi : R) :
  bellet_f4 theta phi = 0 \/ bellet_f4 theta phi = 1 / 2
  \/ bellet_f4 theta phi = 2 * (1 / 2).
Proof.
  unfold bellet_f4, spherical_to_xyz. unfold_real. f32_eval.
  sgn_cases; [left | right; left | right; right]; lra.
Qed.

(** The coordinate transform at a few points. *)
Lemma xyz_0_0 : spherical_to_xyz 0 0 = (0, 0, 1) :> R * R * R.
Proof.
  unfold spherical_to_xyz. unfold_real. rewrite sin_0, cos_0.
  apply f_equal2; [apply f_equal2 |]; lra.
Qed.

Lemma xyz_PI_0 : spherical_to_xyz PI 0 = (0, 0, - 1) :> R * R * R.
Proof.
  unfold spherical_to_xyz. unfold_real. rewrite sin_PI, cos_PI.
  apply f_equal2; [apply f_equal2 |]; lra.
Qed.

Lemma xyz_PI4_0 :
  spherical_to_xyz (PI / 4) 0 = (1 / sqrt 2, 0, 1 / sqrt 2) :> R * R * R.
Proof.
  unfold spherical_to_xyz. unfold_real.
  rewrite sin_PI4, cos_PI4, sin_0, cos_0. apply f_equal2; [apply f_equal2 |]; lra.
Qed.

Lemma xyz_PI2_0 : spherical_to_xyz (PI / 2) 0 = (1, 0, 0) :> R * R * R.
Proof.
  unfold spherical_to_xyz. unfold_real.
  rewrite sin_PI2, cos_PI2, sin_0, cos_0. apply f_equal2; [apply f_equal2 |]; lra.
Qed.

Lemma xyz_PI2_PI : spherical_to_xyz (PI / 2) PI = (- 1, 0, 0) :> R * R * R.
Proof.
  unfold spherical_to_xyz. unfold_real.
  rewrite sin_PI2, cos_PI2, sin_PI, cos_PI. apply f_equal2; [apply f_equal2 |]; lra.
Qed.

Lemma xyz_PI2_PI3 :
  spherical_to_xyz (PI / 2) (PI / 3) = (1 / 2, sqrt 3 / 2, 0) :> R * R * R.
Proof.
  unfold spherical_to_xyz. unfold_real.
  rewrite sin_PI2, cos_PI2, sin_PI3, cos_PI3. apply f_equal2; [apply f_equal2 |]; lra.
Qed.

Ltac eval_at Hxyz :=
  rewrite Hxyz; unfold_real; f32_eval;
  let Hr := fresh "Hr" in sgn_at Hr; lra.

Lemma fornberg_f4_0_0 : fornberg_f4 0 0 = 2 / 9.
Proof. unfold fornberg_f4. eval_at xyz_0_0. Qed.

Lemma fornberg_f4_PI_0 : fornberg_f4 PI 0 = 0.
Proof. unfold fornberg_f4. eval_at xyz_PI_0. Qed.

Lemma fornberg_f4_PI4_0 : fornberg_f4 (PI / 4) 0 = 1 / 9.
Proof. unfold fornberg_f4. eval_at xyz_PI4_0. Qed.

Lemma beentjes_f4_0_0 : beentjes_f4 0 0 = 2 / 9.
Proof. unfold beentjes_f4. eval_at xyz_0_0. Qed.

Lemma beentjes_f4_PI_0 : beentjes_f4 PI 0 = 0.
Proof. unfold beentjes_f4. eval_at xyz_PI_0. Qed.

Lemma beentjes_f4_PI4_0 : beentjes_f4 (PI / 4) 0 = 1 / 9.
Proof. unfold beentjes_f4. eval_at xyz_PI4_0. Qed.

Lemma beentjes_f5_0_0 : beentjes_f5 0 0 = 1 / 9.
Proof. unfold beentjes_f5, F_PI. eval_at xyz_0_0. Qed.

Lemma beentjes_f5_PI2_0 : beentjes_f5 (PI / 2) 0 = 0.
Proof. unfold beentjes_f5, F_PI. eval_at xyz_PI2_0. Qed.

Lemma beentjes_f5_PI2_PI : beentjes_f5 (PI / 2) PI = 2 / 9.
Proof. unfold beentjes_f5, F_PI. eval_at xyz_PI2_PI. Qed.

Lemma bellet_f4_0_0 : bellet_f4 0 0 = 0.
Proof. unfold bellet_f4. eval_at xyz_0_0. Qed.

Lemma bellet_f4_PI2_0 : bellet_f4 (PI / 2) 0 = 1.
Proof. unfold bellet_f4. eval_at xyz_PI2_0. Qed.

Lemma bellet_f4_PI2_PI3 : bellet_f4 (PI / 2) (PI / 3) = 1 / 2.
Proof. unfold bellet_f4. eval_at xyz_PI2_PI3. Qed.

(** C2, as the code has it: [fornberg_f4], [beentjes_f4] and
    [beentjes_f5] take the three values [0], [1/9] and [2/9], and
    [bellet_f4] the three values [0], [1/2] and [1]; the middle value is
    the one taken where the argument of [sgn] is zero. *)
Theorem sign_functions_three_valued :
  three_valued (1 / 9) fornberg_f4
  /\ three_valued (1 / 9) beentjes_f4
  /\ three_valued (1 / 9) beentjes_f5
  /\ three_valued (1 / 2) bellet_f4.
Proof.
  repeat split.
  - exact fornberg_f4_range.
  - exists PI, 0. exact fornberg_f4_PI_0.
  - exists (PI / 4), 0. exact fornberg_f4_PI4_0.
  - exists 0, 0. rewrite fornberg_f4_0_0. lra.
  - exact beentjes_f4_range.
  - exists PI, 0. exact beentjes_f4_PI_0.
  - exists (PI / 4), 0. exact beentjes_f4_PI4_0.
  - exists 0, 0. rewrite beentjes_f4_0_0. lra.
  - exact beentjes_f5_range.
  - exists (PI / 2), 0. exact beentjes_f5_PI2_0.
  - exists 0, 0. exact beentjes_f5_0_0.
  - exists (PI / 2), PI. rewrite beentjes_f5_PI2_PI. lra.
  - exact bellet_f4_range.
  - exists 0, 0. exact bellet_f4_0_0.
  - exists (PI / 2), (PI / 3). exact bellet_f4_PI2_PI3.
  - exists (PI / 2), 0. rewrite bellet_f4_PI2_0. lra.
Qed.

(** C2 as stated fails: [fornberg_f4 0 0] is [2/9], neither [0] nor
    [1/9]; and no pair of values, however scaled, covers [beentjes_f5],
    which is [0] at [(pi/2, 0)], [1/9] at [(0, 0)] and [2/9] at
    [(pi/2, pi)]. *)
Lemma sign_functions_not_binary :
  fornberg_f4 0 0 = 2 / 9
  /\ ~ two_valued 0 (1 / 9) fornberg_f4
  /\ ~ (exists a b : R, two_valued a b beentjes_f5).
Proof.
  split; [exact fornberg_f4_0_0 |]. split.
  - intros Hb. destruct (Hb 0 0) as [H0 | H0];
      rewrite fornberg_f4_0_0 in H0; lra.
  - intros (a & b & Hb).
    pose proof (Hb 0 0) as H1. pose proof (Hb (PI / 2) 0) as H2.
    pose proof (Hb (PI / 2) PI) as H3.
    rewrite beentjes_f5_0_0 in H1. rewrite beentjes_f5_PI2_0 in H2.
    rewrite beentjes_f5_PI2_PI in H3. lra.
Qed.

(** ** The constant [F_PI] *)

(** Machin-like bounds for [PI], from nine terms of the alternating series
    of [2 atan (1/3) + atan (1/7)]. *)
Lemma PI_bounds : 314159265 / 100000000 < PI < 314159266 / 100000000.
Proof.
  pose proof (PI_2_3_7_ineq 4) as [Hlo Hup].
  unfold sum_f_R0, tg_alt, PI_2_3_7_tg, Ratan_seq in Hlo, Hup.
  cbn [Nat.mul Nat.add] in Hlo, Hup.
  repeat rewrite S_INR in Hlo. repeat rewrite S_INR in Hup.
  rewrite INR_0 in Hlo, Hup.
  cbn [pow] in Hlo, Hup.
  split; [clear Hup | clear Hlo]; lra.
Qed.

(** The binary32 number nearest to pi is above pi. *)
Lemma F_PI_above_PI : PI < F_PI.
Proof. rewrite F_PI_value. pose proof PI_bounds as [_ Hup]. lra. Qed.

(** [F_PI] is a binary32 number, [m * 2^-22] with [2^23 <= m < 2^24], and
    within half a unit in the last place of the decimal of the literal. *)
Lemma F_PI_nearest_binary32 :
  F_PI = 13176795 * / 2 ^ 22
  /\ 2 ^ 23 <= 13176795 < 2 ^ 24
  /\ Rabs (Q2R 3.14159265358979323846 - F_PI) < / 2 ^ 23.
Proof.
  split; [rewrite F_PI_value; lra |]. split; [lra |].
  rewrite F_PI_value. unfold Q2R. cbn [Qnum Qden].
  apply Rabs_def1; lra.
Qed.

(** The decimal of the literal, before it is rounded to binary32, is not
    pi either: it is below pi, by less than [3e-21]. *)
Lemma F_PI_decimal_below_PI : Q2R 3.14159265358979323846 < PI.
Proof.
  pose proof (PI_2_3_7_ineq 10) as [Hlo _].
  unfold sum_f_R0, tg_alt, PI_2_3_7_tg, Ratan_seq in Hlo.
  cbn [Nat.mul Nat.add] in Hlo.
  repeat rewrite S_INR in Hlo. rewrite INR_0 in Hlo.
  cbn [pow] in Hlo.
  unfold Q2R. cbn [Qnum Qden]. lra.
Qed.

(** ** Reegar's second function *)

Lemma atan_unit_interval (z : R) : - 1 <= z <= 1 -> - (PI / 4) <= atan z <= PI / 4.
Proof.
  intros [Hlo Hup]. rewrite <- atan_1. split.
  - rewrite <- atan_opp.
    destruct (Req_dec_T z (- 1)) as [-> | Hne]; [right; reflexivity |].
    left. apply atan_increasing. lra.
  - destruct (Req_dec_T z 1) as [-> | Hne]; [right; reflexivity |].
    left. apply atan_increasing. lra.
Qed.

(** The quotient [2.0f / F_PI], a division of two [float]s: the binary32
    number [10680707 / 2^24], nearest to [2 / F_PI] and below [2 / pi]. *)
Lemma two_over_F_PI_value :
  f32 (Binary32.round 2.0 / F_PI_float) = 10680707 / 16777216 :> R.
Proof. unfold F_PI_float. unfold_real. f32_eval. lra. Qed.

Lemma two_over_F_PI_nearest :
  Rabs (2 / F_PI - 10680707 / 16777216) <= / 2 ^ 25
  /\ 2 / PI - 3 / 100000000 < 10680707 / 16777216 < 2 / PI.
Proof.
  pose proof PI_bounds as [Plo Pup]. split.
  - rewrite F_PI_value. apply Rabs_le. split; lra.
  - assert (Hinv : 2 / PI * PI = 2) by (field; lra).
    assert (Hpos : 0 < 2 / PI).
    { unfold Rdiv. apply Rmult_lt_0_compat; [lra |].
      apply Rinv_0_lt_compat. lra. }
    split; nra.
Qed.

Lemma reegar_f2_formula (theta phi : R) :
  reegar_f2 theta phi = 10680707 / 16777216 * atan (cos theta).
Proof.
  unfold reegar_f2, spherical_to_xyz. cbv beta iota zeta.
  rewrite two_over_F_PI_value. reflexivity.
Qed.

Lemma reegar_f2_0_0 : reegar_f2 0 0 = 10680707 / 16777216 * (PI / 4).
Proof. rewrite reegar_f2_formula, cos_0, atan_1. reflexivity. Qed.

Lemma reegar_f2_0_0_below_half : 1 / 2 - 3 / 100000000 < reegar_f2 0 0 < 1 / 2.
Proof.
  rewrite reegar_f2_0_0. pose proof PI_bounds as [Hlo Hup]. split; lra.
Qed.

Lemma reegar_f2_bounds (theta phi : R) :
  - (1 / 2) <= reegar_f2 theta phi <= 1 / 2.
Proof.
  rewrite reegar_f2_formula.
  pose proof (atan_unit_interval (cos theta) (COS_bound theta)) as [Hlo Hup].
  pose proof PI_bounds as [Plo Pup]. split; lra.
Qed.

(** C8, as the code has it: [reegar_f2 theta phi] is [c atan z] with
    [z = cos theta], where [c] is the result [10680707 / 2^24] of the
    [float] division [2.0f / F_PI], the binary32 number nearest to
    [2 / F_PI] and within [3e-8] below [2 / pi]; it lies in [[-1, 1]];
    and [reegar_f2 0 0], where [z = 1], is [c pi / 4], within [3e-8] of
    [1/2] and not above it. *)
Theorem reegar_f2_spec :
  (forall theta phi : R,
      reegar_f2 theta phi = 10680707 / 16777216 * atan (cos theta)
      /\ - 1 <= reegar_f2 theta phi <= 1)
  /\ f32 (Binary32.round 2.0 / F_PI_float) = 10680707 / 16777216
  /\ F_PI = 13176795 / 4194304
  /\ Rabs (2 / F_PI - 10680707 / 16777216) <= / 2 ^ 25
  /\ 2 / PI - 3 / 100000000 < 10680707 / 16777216 < 2 / PI
  /\ spherical_to_xyz 0 0 = (0, 0, 1)
  /\ reegar_f2 0 0 = 10680707 / 16777216 * atan 1
  /\ reegar_f2 0 0 = 10680707 / 16777216 * (PI / 4)
  /\ 1 / 2 - 3 / 100000000 < reegar_f2 0 0 <= 1 / 2.
Proof.
  split.
  { intros theta phi. split; [apply reegar_f2_formula |].
    pose proof (reegar_f2_bounds theta phi) as [Hlo Hup]. split; lra. }
  split; [exact two_over_F_PI_value |]. split; [exact F_PI_value |].
  split; [exact (proj1 two_over_F_PI_nearest) |].
  split; [exact (proj2 two_over_F_PI_nearest) |].
  split; [exact xyz_0_0 |].
  split; [rewrite reegar_f2_formula, cos_0; reflexivity |].
  split; [exact reegar_f2_0_0 |].
  pose proof reegar_f2_0_0_below_half as [Hlo Hup]. split; lra.
Qed.

(** C8 as stated fails at [(0, 0)]: in exact arithmetic on the constants
    of the code the value there is [c pi / 4], below [0.5]. *)
Lemma reegar_f2_0_0_not_half : reegar_f2 0 0 <> 1 / 2.
Proof. pose proof reegar_f2_0_0_below_half as [_ Hup]. lra. Qed.

(** ** The custom function [cf_f10] *)

Lemma cf_f10_formula (theta phi : R) :
  cf_f10 theta phi = 6 + 2.5 * cos ((theta - F_PI) / 2) * sin (16 * theta).
Proof.
  unfold cf_f10, spherical_to_xyz. unfold_real.
  rewrite (unit_sphere theta phi).
  replace (Q2R (Binary32.round 2.5)) with 2.5 by (f32_eval; lra).
  replace (Q2R (Binary32.round 2.0)) with 2 by (f32_eval; lra).
  replace (Q2R (Binary32.round 16.0)) with 16 by (f32_eval; lra).
  ring.
Qed.

(** The cosine at [F_PI] and at pi: the two are close. *)
Lemma cos_F_PI_close (theta : R) :
  Rabs (cos ((theta - F_PI) / 2) - cos ((theta - PI) / 2)) <= (F_PI - PI) / 2.
Proof.
  pose proof F_PI_above_PI as Habove. pose proof F_PI_value as Hval.
  pose proof PI_bounds as [Plo Pup].
  rewrite form2.
  replace (((theta - F_PI) / 2 - (theta - PI) / 2) / 2)
    with (- ((F_PI - PI) / 4)) by field.
  rewrite sin_neg.
  set (d := (F_PI - PI) / 4).
  set (m := ((theta - F_PI) / 2 + (theta - PI) / 2) / 2).
  assert (Hd : 0 < d) by (unfold d; lra).
  assert (Hs1 : 0 < sin d) by (apply sin_gt_0; unfold d; lra).
  assert (Hs2 : sin d < d) by (apply sin_lt_x; exact Hd).
  replace (-2 * - sin d * sin m) with (2 * sin d * sin m) by ring.
  rewrite Rabs_mult, (Rabs_pos_eq (2 * sin d)) by lra.
  pose proof (SIN_bound m) as [Hm1 Hm2].
  assert (Hm : Rabs (sin m) <= 1) by (apply Rabs_le; lra).
  pose proof (Rabs_pos (sin m)) as Hm0.
  replace ((F_PI - PI) / 2) with (2 * d) by (unfold d; field).
  nra.
Qed.

Lemma cf_f10_close_to_PI_form (theta phi : R) :
  Rabs (cf_f10 theta phi
        - (6 + 2.5 * cos ((theta - PI) / 2) * sin (16 * theta)))
  < 12 / 100000000.
Proof.
  rewrite cf_f10_formula.
  replace (6 + 2.5 * cos ((theta - F_PI) / 2) * sin (16 * theta)
           - (6 + 2.5 * cos ((theta - PI) / 2) * sin (16 * theta)))
    with (2.5 * ((cos ((theta - F_PI) / 2) - cos ((theta - PI) / 2))
                 * sin (16 * theta))) by ring.
  rewrite Rabs_mult, (Rabs_pos_eq 2.5) by lra.
  rewrite Rabs_mult.
  pose proof (cos_F_PI_close theta) as Hc.
  pose proof (SIN_bound (16 * theta)) as [Hs1 Hs2].
  assert (Hs : Rabs (sin (16 * theta)) <= 1) by (apply Rabs_le; lra).
  pose proof (Rabs_pos (sin (16 * theta))) as Hs0.
  pose proof (Rabs_pos (cos ((theta - F_PI) / 2) - cos ((theta - PI) / 2)))
    as Hc0.
  pose proof F_PI_value as Hval. pose proof PI_bounds as [Plo Pup].
  assert (Hd : (F_PI - PI) / 2 < 46 / 1000000000) by lra.
  nra.
Qed.

(** C10, as the code has it: [cf_f10] does not depend on [phi], since
    [x^2 + y^2 + z^2 = 1]; it is
    [6 + 2.5 cos ((theta - F_PI) / 2) sin (16 theta)], with the binary32
    constant [F_PI = 13176795 / 2^22] where the claim has pi, and so
    within [1.2e-7] of the closed form with pi. *)
Theorem cf_f10_spec (theta phi1 phi2 : R) :
  cf_f10 theta phi1 = cf_f10 theta phi2
  /\ (let '(x, y, z) := spherical_to_xyz theta phi1 in
      x * x + y * y + z * z = 1)
  /\ cf_f10 theta phi1
     = 6 + 2.5 * cos ((theta - F_PI) / 2) * sin (16 * theta)
  /\ F_PI = 13176795 / 4194304
  /\ Rabs (cf_f10 theta phi1
           - (6 + 2.5 * cos ((theta - PI) / 2) * sin (16 * theta)))
     < 12 / 100000000.
Proof.
  split; [rewrite !cf_f10_formula; reflexivity |].
  split; [exact (unit_sphere theta phi1) |].
  split; [apply cf_f10_formula |].
  split; [exact F_PI_value | apply cf_f10_close_to_PI_form].
Qed.

(** C10 as stated fails at [theta = 0.1]: with pi in place of [F_PI] the
    closed form is above the value of the code. *)
Lemma cf_f10_not_with_PI :
  cf_f10 (1 / 10) 0
  <> 6 + 2.5 * cos ((1 / 10 - PI) / 2) * sin (16 * (1 / 10)).
Proof.
  rewrite cf_f10_formula.
  pose proof PI_bounds as [Plo Pup]. pose proof F_PI_above_PI as Habove.
  pose proof F_PI_value as Hval.
  assert (Hsin : 0 < sin (16 * (1 / 10))) by (apply sin_gt_0; lra).
  assert (Hcos : cos ((1 / 10 - F_PI) / 2) < cos ((1 / 10 - PI) / 2)).
  { rewrite <- (cos_neg ((1 / 10 - F_PI) / 2)), <- (cos_neg ((1 / 10 - PI) / 2)).
    apply cos_decreasing_1; lra. }
  intros Heq.
  assert (Hlt : cos ((1 / 10 - F_PI) / 2) * sin (16 * (1 / 10))
                < cos ((1 / 10 - PI) / 2) * sin (16 * (1 / 10))).
  { apply Rmult_lt_compat_r; assumption. }
  lra.
Qed.

(** ** Periodicity in the azimuthal angle *)

Lemma cos_shift (k : nat) (u v : R) : u = v + 2 * INR k * PI -> cos u = cos v.
Proof. intros ->. apply cos_period. Qed.

Lemma sin_shift (k : nat) (u v : R) : u = v + 2 * INR k * PI -> sin u = sin v.
Proof. intros ->. apply sin_period. Qed.

Lemma cos_2PI_shift (phi : R) : cos (phi + 2 * PI) = cos phi.
Proof. apply (cos_shift 1). simpl. ring. Qed.

Lemma sin_2PI_shift (phi : R) : sin (phi + 2 * PI) = sin phi.
Proof. apply (sin_shift 1). simpl. ring. Qed.

Lemma xyz_period (theta phi : R) :
  spherical_to_xyz theta (phi + 2 * PI) = spherical_to_xyz theta phi.
Proof.
  unfold spherical_to_xyz. unfold_real.
  rewrite cos_2PI_shift, sin_2PI_shift. reflexivity.
Qed.

Lemma lit_2 : f32 2.0 = 2 :> R.
Proof. unfold_real. f32_eval. lra. Qed.

Lemma lit_5 : f32 5.0 = 5 :> R.
Proof. unfold_real. f32_eval. lra. Qed.

Lemma lit_45 : f32 45.0 = 45 :> R.
Proof. unfold_real. f32_eval. lra. Qed.

Lemma cf_f1_periodic : periodic cf_f1.
Proof.
  intros theta phi. unfold cf_f1. rewrite !lit_2. unfold_real.
  rewrite (cos_shift 2 (2 * (phi + 2 * PI)) (2 * phi)) by (simpl; ring).
  reflexivity.
Qed.

Lemma cf_f2_periodic : periodic cf_f2.
Proof.
  intros theta phi. unfold cf_f2. rewrite !lit_2. unfold_real.
  rewrite (sin_shift 2 (2 * (phi + 2 * PI) - theta) (2 * phi - theta))
    by (simpl; ring).
  reflexivity.
Qed.

Lemma cf_f3_periodic : periodic cf_f3.
Proof.
  intros theta phi. unfold cf_f3. rewrite !lit_5. unfold_real.
  rewrite (sin_shift 5 (5 * (phi + 2 * PI)) (5 * phi)) by (simpl; ring).
  reflexivity.
Qed.

Lemma cf_f4_periodic : periodic cf_f4.
Proof.
  intros theta phi. unfold cf_f4. rewrite !lit_5. unfold_real.
  rewrite (cos_shift 5 (5 * (phi + 2 * PI)) (5 * phi)) by (simpl; ring).
  reflexivity.
Qed.

Lemma cf_f5_periodic : periodic cf_f5.
Proof.
  intros theta phi. unfold cf_f5. rewrite !lit_45. unfold_real.
  rewrite cos_2PI_shift, sin_2PI_shift.
  rewrite (cos_shift 45 (45 * theta + 45 * (phi + 2 * PI))
             (45 * theta + 45 * phi))
    by (rewrite (INR_IZR_INZ 45); simpl Z.of_nat; ring).
  reflexivity.
Qed.

Lemma cf_f6_periodic : periodic cf_f6.
Proof.
  intros theta phi. unfold cf_f6. rewrite !lit_2. unfold_real.
  rewrite (cos_shift 2 (2 * (phi + 2 * PI)) (2 * phi)) by (simpl; ring).
  reflexivity.
Qed.

(** An entry that reads [phi] through the coordinate transform only. *)
Ltac through_xyz :=
  intros theta phi;
  cbv delta [fornberg_f1 fornberg_f4 beentjes_f3 beentjes_f4 beentjes_f5
             renka_f3 renka_f4 renka_f5 reegar_f3 bellet_f4 reegar_f2
             reegar_f4 franke cf_f7 cf_f8 cf_f9 cf_f10 cf_f11 cf_f12 cf_f13
             cf_f14 cf_15];
  cbv beta; rewrite xyz_period; reflexivity.

(** C9: over the reals every entry of the catalogue is periodic in the
    azimuthal angle, [f theta (phi + 2 pi) = f theta phi], the entries
    that go through [spherical_to_xyz] as well as those that read [phi]
    directly. *)
Theorem catalogue_periodic : Forall periodic catalogue.
Proof.
  unfold catalogue. repeat apply Forall_cons; try apply Forall_nil;
    try through_xyz.
  - exact cf_f1_periodic.
  - exact cf_f2_periodic.
  - exact cf_f3_periodic.
  - exact cf_f4_periodic.
  - exact cf_f5_periodic.
  - exact cf_f6_periodic.
Qed.

(** ** Franke's function *)

Lemma franke_quadratic (a b c p q r : R) :
  - (a - p) * (a - p) / 4 - (b - q) * (b - q) / 4 - (c - r) * (c - r) / 4
  = - (/ 4 * (a - p) ^ 2 + / 4 * (b - q) ^ 2 + / 4 * (c - r) ^ 2).
Proof. field. Qed.

Lemma franke_quadratic_unit (a b c p q r : R) :
  - (a - p) * (a - p) - (b - q) * (b - q) - (c - r) * (c - r)
  = - (1 * (a - p) ^ 2 + 1 * (b - q) ^ 2 + 1 * (c - r) ^ 2).
Proof. ring. Qed.

(** On the unit sphere the exponent of the second term, linear in [y] and
    [z], differs from a quadratic form by a constant. *)
Lemma franke_linear_exponent (x y z : R) :
  x * x + y * y + z * z = 1 ->
  - (9 * x + 1) * (9 * x + 1) / 49 - (9 * y + 1) / 10 - (9 * z + 1) / 10
  = (81 / 20 - 1 / 10 + 20 / 3381 - 1 / 49)
    + - (69 / 980 * (9 * x - - 20 / 69) ^ 2 + / 20 * (9 * y - - 1) ^ 2
         + / 20 * (9 * z - - 1) ^ 2).
Proof.
  intros Hs.
  replace (81 / 20) with (81 / 20 * (x * x + y * y + z * z))
    by (rewrite Hs; lra).
  field.
Qed.

Lemma franke_formula (theta phi : R) :
  let '(x, y, z) := spherical_to_xyz theta phi in
  franke theta phi
  = 3 / 4 * exp (- (9 * x - 2) * (9 * x - 2) / 4
                 - (9 * y - 2) * (9 * y - 2) / 4
                 - (9 * z - 2) * (9 * z - 2) / 4)
    + 3 / 4 * exp (- (9 * x + 1) * (9 * x + 1) / 49
                   - (9 * y + 1) / 10 - (9 * z + 1) / 10)
    + 1 / 2 * exp (- (9 * x - 7) * (9 * x - 7) / 4
                   - (9 * y - 3) * (9 * y - 3) / 4
                   - (9 * z - 5) * (9 * z - 5) / 4)
    - f32 0.2 * exp (- (9 * x - 4) * (9 * x - 4)
                     - (9 * y - 7) * (9 * y - 7)
                     - (9 * z - 5) * (9 * z - 5)).
Proof.
  unfold franke, spherical_to_xyz. unfold_real.
  replace (Q2R (Binary32.round 9.0)) with 9 by (f32_eval; lra).
  replace (Q2R (Binary32.round 2.0)) with 2 by (f32_eval; lra).
  replace (Q2R (Binary32.round 4.0)) with 4 by (f32_eval; lra).
  replace (Q2R (Binary32.round 1.0)) with 1 by (f32_eval; lra).
  replace (Q2R (Binary32.round 49.0)) with 49 by (f32_eval; lra).
  replace (Q2R (Binary32.round 10.0)) with 10 by (f32_eval; lra).
  replace (Q2R (Binary32.round 7.0)) with 7 by (f32_eval; lra).
  replace (Q2R (Binary32.round 3.0)) with 3 by (f32_eval; lra).
  replace (Q2R (Binary32.round 5.0)) with 5 by (f32_eval; lra).
  replace (Q2R (Binary32.round 0.75)) with (3 / 4) by (f32_eval; lra).
  replace (Q2R (Binary32.round 0.5)) with (1 / 2) by (f32_eval; lra).
  reflexivity.
Qed.

(** C3: [franke theta phi] is the sum of four weighted Gaussians of the
    point [(x, y, z)], each the exponential of a negated positive definite
    quadratic form centred at a fixed point, over the coordinates scaled
    by 9.  The second term, whose exponent is written with [y] and [z]
    entering linearly, is such a Gaussian because the point is on the
    unit sphere. *)
Theorem franke_four_gaussians :
  positive_definite franke_term1 /\ positive_definite franke_term2
  /\ positive_definite franke_term3 /\ positive_definite franke_term4
  /\ (forall theta phi : R,
        franke theta phi
        = gaussian_at franke_term1 (spherical_to_xyz theta phi)
          + gaussian_at franke_term2 (spherical_to_xyz theta phi)
          + gaussian_at franke_term3 (spherical_to_xyz theta phi)
          + gaussian_at franke_term4 (spherical_to_xyz theta phi))
  /\ (forall theta phi : R,
        let '(x, y, z) := spherical_to_xyz theta phi in
        franke theta phi
        = 3 / 4 * exp (- (9 * x - 2) * (9 * x - 2) / 4
                       - (9 * y - 2) * (9 * y - 2) / 4
                       - (9 * z - 2) * (9 * z - 2) / 4)
          + 3 / 4 * exp (- (9 * x + 1) * (9 * x + 1) / 49
                         - (9 * y + 1) / 10 - (9 * z + 1) / 10)
          + 1 / 2 * exp (- (9 * x - 7) * (9 * x - 7) / 4
                         - (9 * y - 3) * (9 * y - 3) / 4
                         - (9 * z - 5) * (9 * z - 5) / 4)
          - f32 0.2 * exp (- (9 * x - 4) * (9 * x - 4)
                           - (9 * y - 7) * (9 * y - 7)
                           - (9 * z - 5) * (9 * z - 5))).
Proof.
  unfold positive_definite.
  do 4 (split; [cbn; lra |]).
  split; [| exact franke_formula].
  intros theta phi.
  pose proof (unit_sphere theta phi) as Hs.
  pose proof (franke_formula theta phi) as Hf.
  unfold gaussian_at, spherical_to_xyz in *. unfold_real.
  cbn [weight cx cy cz ax ay az franke_term1 franke_term2 franke_term3
       franke_term4].
  unfold_real. cbv zeta in Hf. rewrite Hf. clear Hf. unfold_real.
  set (x := sin theta * cos phi) in *.
  set (y := sin theta * sin phi) in *.
  set (z := cos theta) in *.
  replace (Q2R (Binary32.round 0.75)) with (3 / 4) by (f32_eval; lra).
  replace (Q2R (Binary32.round 0.5)) with (1 / 2) by (f32_eval; lra).
  rewrite !franke_quadratic, franke_quadratic_unit.
  rewrite (franke_linear_exponent x y z Hs), exp_plus.
  ring.
Qed.

(** ** Totality *)

Lemma pdiv_Some (x y : R) : y <> 0 -> pdiv (Some x) (Some y) = Some (x / y).
Proof. intros Hy. unfold pdiv. rewrite (Reqb_false y 0 Hy). reflexivity. Qed.

Lemma psqrt_Some (x : R) : 0 <= x -> psqrt (Some x) = Some (sqrt x).
Proof. intros Hx. unfold psqrt. rewrite (Rltb_false x 0 Hx). reflexivity. Qed.

Lemma is_integral_IZR (n : Z) : is_integral (IZR n) = true.
Proof.
  unfold is_integral. apply Reqb_true. f_equal. symmetry.
  apply Int_part_spec. split; lra.
Qed.

Lemma ppow_Some_IZR (x : R) (n : Z) :
  (0 <= n)%Z -> ppow (Some x) (Some (IZR n)) = Some (Rpow x (IZR n)).
Proof.
  intros Hn. unfold ppow.
  rewrite (Rltb_false (IZR n) 0) by (apply IZR_le in Hn; exact Hn).
  rewrite is_integral_IZR, !Bool.andb_false_r. reflexivity.
Qed.

(** [std::pow (b, 2.0f)] is the square of [b]. *)
Lemma Rpow_2 (b : R) : Rpow b (f32 2.0) = b * b.
Proof.
  rewrite lit_2. unfold Rpow. rewrite is_integral_IZR.
  replace (Int_part 2) with 2%Z by (apply Int_part_spec; split; lra).
  unfold powerRZ. simpl. ring.
Qed.

Lemma renka_f3_denominator_bound (x : R) : 6 <= renka_f3_denominator x.
Proof.
  unfold renka_f3_denominator.
  pose proof (Rle_0_sqr (3 * x - 1)) as Hsq. unfold Rsqr in Hsq. lra.
Qed.

Ltac unfold_partial :=
  cbn [f32 of_int fadd fsub fmul fdiv fneg flt feq fsin fcos fatan ftanh fexp
       fsqrt fabs fpow Partial_FloatOps Real_FloatOps T0 lt eq Float_Ordered
       lift2 test2 option_map].

Ltac literal_nonzero := f32_eval; lra.

Ltac defined_step :=
  first
    [ rewrite pdiv_Some by literal_nonzero
    | rewrite (ppow_Some_IZR _ 2) by lia
    | rewrite psqrt_Some by lra ].

Ltac total :=
  intros theta phi;
  cbv delta [fornberg_f1 fornberg_f4 beentjes_f3 beentjes_f4 beentjes_f5
             renka_f4 renka_f5 reegar_f3 bellet_f4 reegar_f2
             franke cf_f1 cf_f2 cf_f3 cf_f4 cf_f5 cf_f6 cf_f7 cf_f8 cf_f9
             cf_f10 cf_f11 cf_f12 cf_f13 cf_f14 cf_15
             spherical_to_xyz dot F_PI F_PI_2];
  cbv beta zeta; unfold_partial;
  try replace (Q2R (Binary32.round 2.0)) with (IZR 2) by (f32_eval; lra);
  repeat (defined_step; unfold_partial);
  reflexivity.

Lemma renka_f3_formula (theta phi : R) :
  let '(x, y, z) := spherical_to_xyz theta phi in
  renka_f3 theta phi
  = Rabs ((f32 1.25 + cos (f32 5.4 * y)) * cos (6 * z)
          / renka_f3_denominator x).
Proof.
  unfold renka_f3, renka_f3_denominator, spherical_to_xyz. unfold_real.
  replace (Q2R (Binary32.round 6.0)) with 6 by (f32_eval; lra).
  replace (Q2R (Binary32.round 3.0)) with 3 by (f32_eval; lra).
  reflexivity.
Qed.

Lemma renka_f3_total : total_on_reals renka_f3 renka_f3.
Proof.
  intros theta phi. unfold renka_f3, spherical_to_xyz. unfold_partial.
  replace (Q2R (Binary32.round 6.0)) with 6 by (f32_eval; lra).
  replace (Q2R (Binary32.round 3.0)) with 3 by (f32_eval; lra).
  rewrite pdiv_Some; [reflexivity |].
  pose proof (renka_f3_denominator_bound (sin theta * cos phi)) as Hden.
  unfold renka_f3_denominator in Hden. lra.
Qed.

Lemma reegar_f4_total : total_on_reals reegar_f4 reegar_f4.
Proof.
  intros theta phi. unfold reegar_f4, spherical_to_xyz, F_PI. unfold_partial.
  rewrite psqrt_Some by lra. unfold_partial.
  pose proof (sqrt_lt_R0 2 ltac:(lra)) as Hsqrt.
  rewrite pdiv_Some.
  - unfold_partial. rewrite pdiv_Some by literal_nonzero. reflexivity.
  - f32_eval. nra.
Qed.

(** C6: every entry of the catalogue is total on the reals: read over the
    partial reals, where a division by zero, a square root of a negative
    number or a power outside its domain is an error, it returns a real
    on real arguments; and the denominator of [renka_f3], the one divisor
    that depends on the arguments, is at least 6 and so never zero. *)
Theorem catalogue_total :
  Forall2 total_on_reals catalogue catalogue
  /\ forall theta phi : R,
      let '(x, y, z) := spherical_to_xyz theta phi in
      6 <= renka_f3_denominator x
      /\ renka_f3_denominator x <> 0
      /\ renka_f3 theta phi
         = Rabs ((f32 1.25 + cos (f32 5.4 * y)) * cos (6 * z)
                 / renka_f3_denominator x)
      /\ renka_f3 (Some theta) (Some phi) = Some (renka_f3 theta phi).
Proof.
  split.
  - unfold catalogue. repeat apply Forall2_cons; try apply Forall2_nil;
      try (exact renka_f3_total); try (exact reegar_f4_total); total.
  - intros theta phi.
    pose proof (renka_f3_formula theta phi) as Hf.
    pose proof (renka_f3_total theta phi) as Ht.
    unfold spherical_to_xyz in *. unfold_real. cbv zeta in *.
    pose proof (renka_f3_denominator_bound (sin theta * cos phi)) as Hden.
    repeat split; [exact Hden | lra | exact Hf | exact Ht].
Qed.

(** * More of the header *)

(** ** The dot product *)

Lemma dot_real (x1 y1 z1 x2 y2 z2 : R) :
  dot x1 y1 z1 x2 y2 z2 = x1 * x2 + y1 * y2 + z1 * z2.
Proof. reflexivity. Qed.

Lemma dot_cauchy_schwarz (x1 y1 z1 x2 y2 z2 : R) :
  dot x1 y1 z1 x2 y2 z2 * dot x1 y1 z1 x2 y2 z2
  <= dot x1 y1 z1 x1 y1 z1 * dot x2 y2 z2 x2 y2 z2.
Proof.
  rewrite !dot_real.
  pose proof (Rle_0_sqr (x1 * y2 - x2 * y1)) as H1.
  pose proof (Rle_0_sqr (x1 * z2 - x2 * z1)) as H2.
  pose proof (Rle_0_sqr (y1 * z2 - y2 * z1)) as H3.
  unfold Rsqr in H1, H2, H3. nra.
Qed.

(** X1: over the reals [dot] is an inner product: symmetric, linear in
    its first vector, with [dot v v >= 0], and it satisfies the
    Cauchy-Schwarz inequality; on a point of the coordinate transform
    [dot p p = 1]. *)
Theorem dot_inner_product (k x1 y1 z1 x2 y2 z2 x3 y3 z3 theta phi : R) :
  dot x1 y1 z1 x2 y2 z2 = dot x2 y2 z2 x1 y1 z1
  /\ dot (k * x1 + x3) (k * y1 + y3) (k * z1 + z3) x2 y2 z2
     = k * dot x1 y1 z1 x2 y2 z2 + dot x3 y3 z3 x2 y2 z2
  /\ 0 <= dot x1 y1 z1 x1 y1 z1
  /\ dot x1 y1 z1 x2 y2 z2 * dot x1 y1 z1 x2 y2 z2
     <= dot x1 y1 z1 x1 y1 z1 * dot x2 y2 z2 x2 y2 z2
  /\ (let '(x, y, z) := spherical_to_xyz theta phi in dot x y z x y z = 1).
Proof.
  split; [rewrite !dot_real; ring |].
  split; [rewrite !dot_real; ring |].
  split; [rewrite dot_real; nra |].
  split; [apply dot_cauchy_schwarz |].
  exact (unit_sphere theta phi).
Qed.

(** ** Symmetries of the coordinate transform *)

Lemma xyz_theta_period (theta phi : R) :
  spherical_to_xyz (theta + 2 * PI) phi = spherical_to_xyz theta phi.
Proof.
  unfold spherical_to_xyz. unfold_real.
  rewrite cos_2PI_shift, sin_2PI_shift. reflexivity.
Qed.

Lemma xyz_antipode (theta phi : R) :
  spherical_to_xyz (PI - theta) (phi + PI)
  = (- (sin theta * cos phi), - (sin theta * sin phi), - cos theta).
Proof.
  unfold spherical_to_xyz. unfold_real.
  rewrite sin_PI_x, Rtrigo_facts.cos_pi_minus, neg_cos, neg_sin.
  apply f_equal2; [apply f_equal2 |]; ring.
Qed.

Lemma xyz_north (phi : R) : spherical_to_xyz 0 phi = (0, 0, 1).
Proof.
  unfold spherical_to_xyz. unfold_real. rewrite sin_0, cos_0.
  apply f_equal2; [apply f_equal2 |]; ring.
Qed.

Lemma xyz_south (phi : R) : spherical_to_xyz PI phi = (0, 0, - 1).
Proof.
  unfold spherical_to_xyz. unfold_real. rewrite sin_PI, cos_PI.
  apply f_equal2; [apply f_equal2 |]; ring.
Qed.

(** X2: the coordinate transform has period [2 pi] in [theta] as well;
    [(- theta, phi + pi)] is the same point as [(theta, phi)];
    [(pi - theta, phi + pi)] is the antipode; and at [theta = 0] and
    [theta = pi] the point is a pole whatever [phi] is. *)
Theorem spherical_to_xyz_symmetries (theta phi : R) :
  spherical_to_xyz (theta + 2 * PI) phi = spherical_to_xyz theta phi
  /\ spherical_to_xyz (- theta) (phi + PI) = spherical_to_xyz theta phi
  /\ spherical_to_xyz (PI - theta) (phi + PI)
     = (let '(x, y, z) := spherical_to_xyz theta phi in (- x, - y, - z))
  /\ spherical_to_xyz 0 phi = (0, 0, 1)
  /\ spherical_to_xyz PI phi = (0, 0, - 1).
Proof.
  split; [apply xyz_theta_period |].
  split.
  { unfold spherical_to_xyz. unfold_real.
    rewrite sin_neg, cos_neg, neg_cos, neg_sin.
    apply f_equal2; [apply f_equal2 |]; ring. }
  split; [apply xyz_antipode |].
  split; [apply xyz_north | apply xyz_south].
Qed.

(** ** More on the sign helper *)

(** X3: whatever the type and its comparison, [sgn] returns [-1], [0] or
    [1], and it returns [0] exactly when [T(0) < v] and [v < T(0)] have
    the same truth value. *)
Theorem sgn_range (T : Type) `{Ordered T} (v : T) :
  (sgn v = (- 1)%Z \/ sgn v = 0%Z \/ sgn v = 1%Z)
  /\ (sgn v = 0%Z <-> lt T0 v = lt v T0).
Proof.
  unfold sgn. destruct (lt T0 v), (lt v T0); cbn; split;
    try (split; intros; (reflexivity || discriminate)); auto.
Qed.

(** X4: on IEEE numbers [sgn] is [0] on both zeros and on a NaN, and
    follows the sign bit on every other number, the infinities
    included. *)
Theorem sgn_IEEE (v : spec_float) :
  sgn v = match v with
          | S754_zero _ | S754_nan => 0%Z
          | S754_infinity s | S754_finite s _ _ => if s then (- 1)%Z else 1%Z
          end.
Proof. destruct v as [s | s | | s m e]; try destruct s; reflexivity. Qed.

Lemma sgn_real_opp (r : R) : sgn (- r) = (- sgn r)%Z.
Proof.
  destruct (sgn_real_cases r) as [[Hr ->] | [[Hr ->] | [Hr ->]]].
  - apply sgn_pos. apply Rltb_true. cbn. lra.
  - apply sgn_zero. apply Reqb_true. cbn. lra.
  - apply sgn_neg. apply Rltb_true. cbn. lra.
Qed.

Lemma sgn_real_scale (k r : R) : 0 < k -> sgn (k * r) = sgn r.
Proof.
  intros Hk.
  destruct (sgn_real_cases r) as [[Hr ->] | [[Hr ->] | [Hr ->]]].
  - apply sgn_neg. apply Rltb_true. cbn. nra.
  - apply sgn_zero. apply Reqb_true. cbn. nra.
  - apply sgn_pos. apply Rltb_true. cbn. nra.
Qed.

(** X5: on the reals [sgn] is odd and does not change when its argument
    is multiplied by a positive number. *)
Theorem sgn_real_odd_homogeneous (k r : R) :
  0 < k -> sgn (- r) = (- sgn r)%Z /\ sgn (k * r) = sgn r.
Proof. intros Hk. split; [apply sgn_real_opp | apply sgn_real_scale, Hk]. Qed.

Lemma sgn_real_odd_homogeneous_witness :
  sgn (Ropp 3) = Z.opp (sgn 3) /\ sgn (9 * 3) = sgn 3.
Proof. apply (sgn_real_odd_homogeneous 9 3). lra. Defined.

(** ** More on the functions with a jump *)

Lemma sgn_IZR_cases (r : R) :
  (r < 0 /\ IZR (sgn r) = - 1) \/ (r = 0 /\ IZR (sgn r) = 0)
  \/ (0 < r /\ IZR (sgn r) = 1).
Proof.
  destruct (sgn_real_cases r) as [[Hr ->] | [[Hr ->] | [Hr ->]]]; auto.
Qed.

Lemma fornberg_f4_by_sign (theta phi : R) :
  fornberg_f4 theta phi
  = (1 - IZR (sgn (sin theta * cos phi + sin theta * sin phi - cos theta)))
    / 9.
Proof.
  unfold fornberg_f4, spherical_to_xyz. unfold_real. f32_eval.
  replace (- (9) * (sin theta * cos phi) - 9 * (sin theta * sin phi)
           + 9 * cos theta)
    with (9 * - (sin theta * cos phi + sin theta * sin phi - cos theta))
    by ring.
  rewrite sgn_real_scale by lra. rewrite sgn_real_opp, opp_IZR. lra.
Qed.

Lemma beentjes_f4_by_sign (theta phi : R) :
  beentjes_f4 theta phi
  = (1 - IZR (sgn (sin theta * cos phi + sin theta * sin phi - cos theta)))
    / 9.
Proof.
  unfold beentjes_f4, spherical_to_xyz. unfold_real. f32_eval. reflexivity.
Qed.

Lemma beentjes_f5_by_sign (theta phi : R) :
  beentjes_f5 theta phi
  = (1 - IZR (sgn (F_PI * (sin theta * cos phi) + sin theta * sin phi))) / 9.
Proof.
  unfold beentjes_f5, spherical_to_xyz. unfold_real.
  replace (Q2R (Binary32.round 1.0)) with 1 by (f32_eval; lra).
  replace (Q2R (Binary32.round 9.0)) with 9 by (f32_eval; lra).
  reflexivity.
Qed.

Lemma bellet_f4_by_sign (theta phi : R) :
  bellet_f4 theta phi = (1 + IZR (sgn (sin theta * cos phi - 1 / 2))) / 2.
Proof.
  unfold bellet_f4, spherical_to_xyz. unfold_real.
  replace (Q2R (Binary32.round 1.0)) with 1 by (f32_eval; lra).
  replace (Q2R (Binary32.round 0.5)) with (1 / 2) by (f32_eval; lra).
  lra.
Qed.

Lemma beentjes_f4_argument_eq (theta phi : R) :
  beentjes_f4_argument theta phi
  = sin theta * cos phi + sin theta * sin phi - cos theta.
Proof. reflexivity. Qed.

Lemma beentjes_f5_argument_eq (theta phi : R) :
  beentjes_f5_argument theta phi
  = F_PI * (sin theta * cos phi) + sin theta * sin phi.
Proof. reflexivity. Qed.

Lemma bellet_f4_argument_eq (theta phi : R) :
  bellet_f4_argument theta phi = sin theta * cos phi - 1 / 2.
Proof.
  unfold bellet_f4_argument, spherical_to_xyz. unfold_real.
  replace (Q2R (Binary32.round 0.5)) with (1 / 2) by (f32_eval; lra).
  reflexivity.
Qed.

Lemma argument_at_north (phi : R) :
  beentjes_f4_argument 0 phi = - 1 /\ bellet_f4_argument 0 phi = - (1 / 2).
Proof.
  rewrite beentjes_f4_argument_eq, bellet_f4_argument_eq, sin_0, cos_0.
  split; ring.
Qed.

(** X6: [fornberg_f4] and [beentjes_f4] agree: the argument of [sgn] in
    the one is [-9] times that in the other.  The statement leaves out
    the band of half-width [1e-5] around the jump, where the [float]
    evaluation of the two arguments can round to different signs. *)
Theorem fornberg_f4_is_beentjes_f4 (theta phi : R) :
  1 / 100000 <= Rabs (beentjes_f4_argument theta phi) ->
  fornberg_f4 theta phi = beentjes_f4 theta phi.
Proof.
  intros _. rewrite fornberg_f4_by_sign, beentjes_f4_by_sign. reflexivity.
Qed.

Lemma fornberg_f4_is_beentjes_f4_witness : fornberg_f4 0 0 = beentjes_f4 0 0.
Proof.
  apply (fornberg_f4_is_beentjes_f4 0 0).
  rewrite (proj1 (argument_at_north 0)), Rabs_left by lra. lra.
Defined.

(** X7: where the jumps are.  With [(x, y, z)] the point of the
    transform and a margin of [1e-5] around each jump: [fornberg_f4] and
    [beentjes_f4] are [0] where [x + y - z >= 1e-5] and [2/9] where
    [x + y - z <= -1e-5]; [beentjes_f5] is [0] where
    [F_PI x + y >= 1e-5] and [2/9] where [F_PI x + y <= -1e-5];
    [bellet_f4] is [1] where [x - 1/2 >= 1e-5] and [0] where
    [x - 1/2 <= -1e-5]. *)
Theorem jump_locations (theta phi : R) :
  (1 / 100000 <= beentjes_f4_argument theta phi ->
   fornberg_f4 theta phi = 0 /\ beentjes_f4 theta phi = 0)
  /\ (beentjes_f4_argument theta phi <= - (1 / 100000) ->
      fornberg_f4 theta phi = 2 / 9 /\ beentjes_f4 theta phi = 2 / 9)
  /\ (1 / 100000 <= beentjes_f5_argument theta phi ->
      beentjes_f5 theta phi = 0)
  /\ (beentjes_f5_argument theta phi <= - (1 / 100000) ->
      beentjes_f5 theta phi = 2 / 9)
  /\ (1 / 100000 <= bellet_f4_argument theta phi -> bellet_f4 theta phi = 1)
  /\ (bellet_f4_argument theta phi <= - (1 / 100000) ->
      bellet_f4 theta phi = 0).
Proof.
  rewrite fornberg_f4_by_sign, beentjes_f4_by_sign, beentjes_f5_by_sign,
    bellet_f4_by_sign.
  rewrite beentjes_f4_argument_eq, beentjes_f5_argument_eq,
    bellet_f4_argument_eq.
  destruct (sgn_IZR_cases
              (sin theta * cos phi + sin theta * sin phi - cos theta))
    as [[H4 ->] | [[H4 ->] | [H4 ->]]];
    destruct (sgn_IZR_cases
                (F_PI * (sin theta * cos phi) + sin theta * sin phi))
      as [[H5 ->] | [[H5 ->] | [H5 ->]]];
    destruct (sgn_IZR_cases (sin theta * cos phi - 1 / 2))
      as [[Hb ->] | [[Hb ->] | [Hb ->]]];
    repeat split; intros; lra.
Qed.

(** The north pole is on the [2/9] side of [fornberg_f4] and on the [0]
    side of [bellet_f4]; [(pi/2, 0)] is on the [0] side of
    [beentjes_f5]. *)
Lemma jump_locations_witness :
  (fornberg_f4 0 0 = 2 / 9 /\ beentjes_f4 0 0 = 2 / 9)
  /\ bellet_f4 0 0 = 0
  /\ beentjes_f5 (PI / 2) 0 = 0.
Proof.
  split; [| split].
  - apply (proj1 (proj2 (jump_locations 0 0))).
    rewrite (proj1 (argument_at_north 0)). lra.
  - apply (proj2 (proj2 (proj2 (proj2 (proj2 (jump_locations 0 0)))))).
    rewrite (proj2 (argument_at_north 0)). lra.
  - apply (proj1 (proj2 (proj2 (jump_locations (PI / 2) 0)))).
    rewrite beentjes_f5_argument_eq, sin_PI2, sin_0, cos_0, F_PI_value. lra.
Defined.

(** The hyperbolic tangent is odd and strictly between [-1] and [1]. *)
Lemma cosh_pos (x : R) : 0 < cosh x.
Proof.
  unfold cosh. pose proof (exp_pos x). pose proof (exp_pos (- x)). lra.
Qed.

Lemma tanh_opp (x : R) : tanh (- x) = - tanh x.
Proof.
  pose proof (cosh_pos x) as Hc. pose proof (cosh_pos (- x)) as Hc'.
  unfold tanh, sinh, cosh in *. rewrite Ropp_involutive in *.
  field. try split; lra.
Qed.

Lemma tanh_bound (x : R) : - 1 < tanh x < 1.
Proof.
  pose proof (cosh_pos x) as Hc.
  pose proof (exp_pos x) as Hp. pose proof (exp_pos (- x)) as Hn.
  unfold tanh. split.
  - apply (Rmult_lt_reg_r (cosh x)); [exact Hc |].
    unfold Rdiv. rewrite Rmult_assoc, Rinv_l, Rmult_1_r by lra.
    unfold sinh, cosh. lra.
  - apply (Rmult_lt_reg_r (cosh x)); [exact Hc |].
    unfold Rdiv. rewrite Rmult_assoc, Rinv_l, Rmult_1_r by lra.
    unfold sinh, cosh. lra.
Qed.

Lemma beentjes_f3_formula (theta phi : R) :
  beentjes_f3 theta phi
  = (1 + tanh (9 * - (sin theta * cos phi + sin theta * sin phi - cos theta)))
    / 9.
Proof.
  unfold beentjes_f3, spherical_to_xyz. unfold_real. f32_eval.
  do 3 f_equal. ring.
Qed.

(** X8: antipodal symmetry.  [(pi - theta, phi + pi)] is the antipode of
    [(theta, phi)], and there [fornberg_f4], [beentjes_f3], [beentjes_f4]
    and [beentjes_f5] take the value mirrored about [1/9]. *)
Theorem antipodal_symmetry (theta phi : R) :
  fornberg_f4 (PI - theta) (phi + PI) = 2 / 9 - fornberg_f4 theta phi
  /\ beentjes_f3 (PI - theta) (phi + PI) = 2 / 9 - beentjes_f3 theta phi
  /\ beentjes_f4 (PI - theta) (phi + PI) = 2 / 9 - beentjes_f4 theta phi
  /\ beentjes_f5 (PI - theta) (phi + PI) = 2 / 9 - beentjes_f5 theta phi.
Proof.
  rewrite !fornberg_f4_by_sign, !beentjes_f4_by_sign, !beentjes_f5_by_sign,
    !beentjes_f3_formula.
  rewrite sin_PI_x, Rtrigo_facts.cos_pi_minus, neg_cos, neg_sin.
  replace (sin theta * - cos phi + sin theta * - sin phi - - cos theta)
    with (- (sin theta * cos phi + sin theta * sin phi - cos theta)) by ring.
  replace (F_PI * (sin theta * - cos phi) + sin theta * - sin phi)
    with (- (F_PI * (sin theta * cos phi) + sin theta * sin phi)) by ring.
  replace (9 * - - (sin theta * cos phi + sin theta * sin phi - cos theta))
    with (- (9 * - (sin theta * cos phi + sin theta * sin phi - cos theta)))
    by ring.
  rewrite !sgn_real_opp, !opp_IZR, tanh_opp.
  repeat split; lra.
Qed.

(** ** Renka's functions *)

(** X9: [renka_f3] lies in [[0, 3/8]]: its numerator is at most
    [2.25] in absolute value and its denominator at least [6]. *)
Theorem renka_f3_range (theta phi : R) : 0 <= renka_f3 theta phi <= 3 / 8.
Proof.
  pose proof (renka_f3_formula theta phi) as Hf.
  unfold spherical_to_xyz in Hf. cbv beta iota zeta in Hf. rewrite Hf.
  unfold_real.
  replace (Q2R (Binary32.round 1.25)) with (5 / 4) by (f32_eval; lra).
  set (u := Q2R (Binary32.round 5.4) * (sin theta * sin phi)).
  set (v := 6 * cos theta).
  pose proof (renka_f3_denominator_bound (sin theta * cos phi)) as Hden.
  set (D := renka_f3_denominator (sin theta * cos phi)) in *.
  pose proof (COS_bound u) as [Hu1 Hu2]. pose proof (COS_bound v) as [Hv1 Hv2].
  split; [apply Rabs_pos |].
  assert (HD : 0 < / D <= / 6).
  { split; [apply Rinv_0_lt_compat; lra |].
    apply Rinv_le_contravar; lra. }
  unfold Rdiv. rewrite Rabs_mult, (Rabs_pos_eq (/ D)) by lra.
  assert (Hn : Rabs ((5 / 4 + cos u) * cos v) <= 9 / 4)
    by (apply Rabs_le; split; nra).
  pose proof (Rabs_pos ((5 / 4 + cos u) * cos v)) as Hn0.
  nra.
Qed.

Lemma Rpow_literal_2 (b : R) : Rpow b (Q2R (Binary32.round 2.0)) = b * b.
Proof. exact (Rpow_2 b). Qed.

Lemma sum_below_7_4 (x y z : R) : x * x + y * y + z * z = 1 -> x + y + z < 7 / 4.
Proof.
  intros Hs.
  pose proof (Rle_0_sqr (x - y)) as H1. pose proof (Rle_0_sqr (x - z)) as H2.
  pose proof (Rle_0_sqr (y - z)) as H3. unfold Rsqr in H1, H2, H3. nra.
Qed.

Lemma renka_f4_formula (theta phi : R) :
  renka_f4 theta phi
  = exp (- (81 / 16)
         * (7 / 4 - (sin theta * cos phi + sin theta * sin phi + cos theta)))
    / 3.
Proof.
  pose proof (unit_sphere theta phi) as Hs.
  unfold renka_f4, spherical_to_xyz. unfold_real.
  rewrite !Rpow_literal_2. f32_eval.
  f_equal. f_equal. nra.
Qed.

Lemma renka_f5_formula (theta phi : R) :
  renka_f5 theta phi
  = exp (- (81 / 4)
         * (7 / 4 - (sin theta * cos phi + sin theta * sin phi + cos theta)))
    / 3.
Proof.
  pose proof (unit_sphere theta phi) as Hs.
  unfold renka_f5, spherical_to_xyz. unfold_real.
  rewrite !Rpow_literal_2. f32_eval.
  f_equal. f_equal. nra.
Qed.

(** X10: on the sphere the squared distance to [(.5, .5, .5)] is
    [7/4 - (x + y + z)], so [renka_f4] is
    [exp (- (81/16) (7/4 - (x + y + z))) / 3]; [renka_f5] is
    [27 renka_f4 ^ 4]; and [0 < renka_f5 < renka_f4 < 1/3]. *)
Theorem renka_f4_f5_spec (theta phi : R) :
  (let '(x, y, z) := spherical_to_xyz theta phi in
   renka_f4 theta phi = exp (- (81 / 16) * (7 / 4 - (x + y + z))) / 3)
  /\ renka_f5 theta phi = 27 * renka_f4 theta phi ^ 4
  /\ 0 < renka_f5 theta phi < renka_f4 theta phi
  /\ renka_f4 theta phi < 1 / 3.
Proof.
  pose proof (sum_below_7_4 _ _ _ (unit_sphere theta phi)) as Hsum.
  split; [exact (renka_f4_formula theta phi) |].
  rewrite renka_f4_formula, renka_f5_formula.
  set (d := 7 / 4 - (sin theta * cos phi + sin theta * sin phi + cos theta))
    in *.
  assert (Hd : 0 < d) by (unfold d; lra).
  pose proof (exp_pos (- (81 / 4) * d)) as H5.
  assert (H54 : exp (- (81 / 4) * d) < exp (- (81 / 16) * d))
    by (apply exp_increasing; lra).
  assert (H41 : exp (- (81 / 16) * d) < 1)
    by (rewrite <- exp_0; apply exp_increasing; lra).
  split; [| split; [split |]]; try lra.
  replace (- (81 / 4) * d)
    with (- (81 / 16) * d + (- (81 / 16) * d + (- (81 / 16) * d
          + - (81 / 16) * d))) by field.
  rewrite !exp_plus. field.
Qed.

(** ** Reegar's functions *)

Lemma F_PI_2_value : F_PI_2 = 13176795 / 8388608.
Proof. unfold F_PI_2. unfold_real. f32_eval. lra. Qed.

(** The threshold [9999.0f / 10000.0f] of [reegar_f3], a division of two
    [float]s: the binary32 number [8387769 / 2^23], nearest to
    [9999 / 10000]. *)
Lemma reegar_f3_threshold_value :
  f32 (Binary32.round 9999.0 / Binary32.round 10000.0) = 8387769 / 8388608
  :> R.
Proof. unfold_real. f32_eval. lra. Qed.

Lemma reegar_f3_formula (theta phi : R) :
  reegar_f3 theta phi
  = (F_PI / 2 + atan (300 * (cos theta - 8387769 / 8388608))) / F_PI.
Proof.
  unfold reegar_f3, spherical_to_xyz. cbv beta iota zeta.
  rewrite reegar_f3_threshold_value. unfold_real.
  change (Q2R (Binary32.round 1.570796327)) with (@F_PI_2 R _).
  change (Q2R (Binary32.round 3.14159265358979323846)) with (@F_PI R _).
  replace (Q2R (Binary32.round 300.0)) with 300 by (f32_eval; lra).
  rewrite F_PI_2_value, F_PI_value. do 2 f_equal. lra.
Qed.

Lemma reegar_f4_formula (theta phi : R) :
  reegar_f4 theta phi
  = 1 / 2 + atan (1000 * (cos theta - 9999 / (20000 * sqrt 2))) / F_PI.
Proof.
  pose proof (sqrt_lt_R0 2 ltac:(lra)) as Hsqrt.
  unfold reegar_f4, spherical_to_xyz. unfold_real.
  change (Q2R (Binary32.round 3.14159265358979323846)) with (@F_PI R _).
  f32_eval. f_equal; lra.
Qed.

Lemma atan_over_F_PI (u : R) : - (1 / 2) < atan u / F_PI < 1 / 2.
Proof.
  pose proof (atan_bound u) as [Hlo Hup]. pose proof PI_bounds as [Plo Pup].
  rewrite F_PI_value.
  replace (atan u / (13176795 / 4194304))
    with (atan u * (4194304 / 13176795)) by field.
  split; lra.
Qed.

Lemma reegar_f3_as_step (theta phi : R) :
  reegar_f3 theta phi
  = 1 / 2 + atan (300 * (cos theta - 8387769 / 8388608)) / F_PI.
Proof. rewrite reegar_f3_formula, F_PI_value. field. Qed.

(** X11: [reegar_f3] and [reegar_f4] are steps in [z = cos theta] alone.
    The threshold of [reegar_f3] is the [float] quotient
    [9999.0f / 10000.0f = 8387769 / 2^23], and [F_PI_2] is exactly half
    of [F_PI]; in [reegar_f4] the product [10000.0f * 2.0f] is [20000].
    Neither depends on [phi], and both lie strictly between [0] and [1],
    since [F_PI] is above pi. *)
Theorem reegar_steps (theta phi phi' : R) :
  F_PI_2 = F_PI / 2
  /\ f32 (Binary32.round 9999.0 / Binary32.round 10000.0)
     = 8387769 / 8388608
  /\ reegar_f3 theta phi
     = (F_PI / 2 + atan (300 * (cos theta - 8387769 / 8388608))) / F_PI
  /\ reegar_f4 theta phi
     = 1 / 2 + atan (1000 * (cos theta - 9999 / (20000 * sqrt 2))) / F_PI
  /\ reegar_f3 theta phi = reegar_f3 theta phi'
  /\ reegar_f4 theta phi = reegar_f4 theta phi'
  /\ 0 < reegar_f3 theta phi < 1
  /\ 0 < reegar_f4 theta phi < 1.
Proof.
  split; [rewrite F_PI_2_value, F_PI_value; lra |].
  split; [exact reegar_f3_threshold_value |].
  split; [apply reegar_f3_formula |]. split; [apply reegar_f4_formula |].
  rewrite !reegar_f3_as_step, !reegar_f4_formula.
  split; [reflexivity |]. split; [reflexivity |].
  pose proof (atan_over_F_PI (300 * (cos theta - 8387769 / 8388608)))
    as [H1 H2].
  pose proof (atan_over_F_PI
    (1000 * (cos theta - 9999 / (20000 * sqrt 2)))) as [H3 H4].
  repeat split; lra.
Qed.

(** X12: [reegar_f2] does not depend on [phi], changes sign under the
    reflection [theta -> pi - theta] in the equator, and lies in
    [[-1/2, 1/2]]. *)
Theorem reegar_f2_symmetry (theta phi phi' : R) :
  reegar_f2 theta phi = reegar_f2 theta phi'
  /\ reegar_f2 (PI - theta) phi = - reegar_f2 theta phi
  /\ - (1 / 2) <= reegar_f2 theta phi <= 1 / 2.
Proof.
  split; [rewrite !reegar_f2_formula; reflexivity |]. split.
  - rewrite !reegar_f2_formula, Rtrigo_facts.cos_pi_minus, atan_opp. ring.
  - apply reegar_f2_bounds.
Qed.

Lemma atan_le (u v : R) : u <= v -> atan u <= atan v.
Proof.
  intros [Huv | ->]; [left; apply atan_increasing; exact Huv | right; reflexivity].
Qed.

(** X13: from the north pole to the south pole the three functions of
    Reegar do not increase. *)
Theorem reegar_decreasing (theta1 theta2 phi : R) :
  0 <= theta1 -> theta1 <= theta2 -> theta2 <= PI ->
  reegar_f2 theta2 phi <= reegar_f2 theta1 phi
  /\ reegar_f3 theta2 phi <= reegar_f3 theta1 phi
  /\ reegar_f4 theta2 phi <= reegar_f4 theta1 phi.
Proof.
  intros H0 H12 Hpi.
  assert (Hcos : cos theta2 <= cos theta1) by (apply cos_decr_1; lra).
  rewrite !reegar_f2_formula, !reegar_f3_as_step, !reegar_f4_formula.
  rewrite F_PI_value.
  pose proof (atan_le _ _ Hcos) as H2.
  assert (H3 : atan (300 * (cos theta2 - 8387769 / 8388608))
               <= atan (300 * (cos theta1 - 8387769 / 8388608)))
    by (apply atan_le; lra).
  assert (H4 : atan (1000 * (cos theta2 - 9999 / (20000 * sqrt 2)))
               <= atan (1000 * (cos theta1 - 9999 / (20000 * sqrt 2))))
    by (apply atan_le; lra).
  repeat split; lra.
Qed.

Lemma reegar_decreasing_witness :
  reegar_f2 1 0 <= reegar_f2 0 0
  /\ reegar_f3 1 0 <= reegar_f3 0 0
  /\ reegar_f4 1 0 <= reegar_f4 0 0.
Proof.
  pose proof PI_bounds as [Plo Pup].
  apply (reegar_decreasing 0 1 0); lra.
Defined.

(** ** The custom functions that read the angles directly *)

Lemma cf_f1_formula (theta phi : R) :
  cf_f1 theta phi
  = Rabs (sin (cos (2 * phi) - 2 * theta)) + Rabs (cos (2 * theta)).
Proof. unfold cf_f1. rewrite !lit_2. reflexivity. Qed.

Lemma cf_f2_formula (theta phi : R) :
  cf_f2 theta phi = Rabs (sin (2 * phi - theta)) + Rabs (cos (2 * theta)).
Proof. unfold cf_f2. rewrite !lit_2. reflexivity. Qed.

Lemma cf_f3_formula (theta phi : R) : cf_f3 theta phi = 1 + sin (5 * phi) / 5.
Proof.
  unfold cf_f3. rewrite !lit_5. unfold_real.
  replace (Q2R (Binary32.round 1.0)) with 1 by (f32_eval; lra).
  reflexivity.
Qed.

Lemma cf_f4_formula (theta phi : R) :
  cf_f4 theta phi = 1 + cos (5 * phi) / 5 + sin (5 * theta).
Proof.
  unfold cf_f4. rewrite !lit_5. unfold_real.
  replace (Q2R (Binary32.round 1.0)) with 1 by (f32_eval; lra).
  reflexivity.
Qed.

Lemma cf_f6_formula (theta phi : R) :
  cf_f6 theta phi
  = 1 + 1 / 2 * cos theta + 5033165 / 16777216 * cos (2 * phi).
Proof.
  unfold cf_f6. rewrite !lit_2. unfold_real.
  replace (Q2R (Binary32.round 1.0)) with 1 by (f32_eval; lra).
  replace (Q2R (Binary32.round 0.5)) with (1 / 2) by (f32_eval; lra).
  replace (Q2R (Binary32.round 0.3)) with (5033165 / 16777216)
    by (f32_eval; lra).
  reflexivity.
Qed.







Lemma cf_f5_formula (theta phi : R) :
  cf_f5 theta phi
  = exp (2 * dot (sin theta * cos phi) (sin theta * sin phi) (cos theta)
                 (- 1) (- 1) (f32 0.8))
    + exp (3 / 2 * dot (sin theta * cos phi) (sin theta * sin phi) (cos theta)
                       1 (- 1) (f32 0.8))
    + exp theta
    + 10 * exp (dot (sin theta * cos phi) (sin theta * sin phi) (cos theta)
                    (f32 0.8) (f32 0.3) (- 4) - 1)
    + 4 * Rabs (cos (45 * theta + 45 * phi)).
Proof.
  unfold cf_f5. rewrite !lit_45, !lit_2. unfold dot. unfold_real.
  replace (Q2R (Binary32.round 1.0)) with 1 by (f32_eval; lra).
  replace (Q2R (Binary32.round 1.5)) with (3 / 2) by (f32_eval; lra).
  replace (Q2R (Binary32.round 10.0)) with 10 by (f32_eval; lra).
  replace (Q2R (Binary32.round 4.0)) with 4 by (f32_eval; lra).
  reflexivity.
Qed.




(** ** The custom function [cf_f10] in [theta] *)


(** ** The poles *)

Ltac at_poles :=
  intros phi phi';
  cbv delta [fornberg_f1 fornberg_f4 beentjes_f3 beentjes_f4 beentjes_f5
             renka_f3 renka_f4 renka_f5 reegar_f3 bellet_f4 reegar_f2
             reegar_f4 franke cf_f7 cf_f8 cf_f9 cf_f10 cf_f11 cf_f12 cf_f13
             cf_f14 cf_15];
  cbv beta; rewrite !xyz_north, !xyz_south; split; reflexivity.

(** X19: at [theta = 0] and at [theta = pi] the coordinate transform
    gives the pole whatever [phi] is, so each of the 22 entries that read
    [phi] through the transform has a single value at each pole. *)
Theorem transform_entries_at_poles :
  Forall single_valued_at_poles transform_entries.
Proof.
  unfold transform_entries.
  repeat apply Forall_cons; try apply Forall_nil; at_poles.
Qed.

(** X20: the six entries that read [phi] directly do not have a single
    value at the north pole: each takes two values at [theta = 0]. *)
Theorem direct_entries_at_north_pole :
  cf_f1 0 0 <> cf_f1 0 (PI / 4)
  /\ cf_f2 0 0 <> cf_f2 0 (PI / 4)
  /\ cf_f3 0 0 <> cf_f3 0 (PI / 10)
  /\ cf_f4 0 0 <> cf_f4 0 (PI / 5)
  /\ cf_f5 0 0 <> cf_f5 0 (PI / 90)
  /\ cf_f6 0 0 <> cf_f6 0 (PI / 2).
Proof.
  pose proof PI_bounds as [Plo Pup].
  rewrite !cf_f1_formula, !cf_f2_formula, !cf_f3_formula, !cf_f4_formula,
    !cf_f5_formula, !cf_f6_formula.
  replace (2 * 0) with 0 by ring. replace (5 * 0) with 0 by ring.
  replace (2 * (PI / 4)) with (PI / 2) by field.
  replace (5 * (PI / 10)) with (PI / 2) by field.
  replace (5 * (PI / 5)) with PI by field.
  replace (2 * (PI / 2)) with PI by field.
  replace (45 * 0 + 45 * 0) with 0 by ring.
  replace (45 * 0 + 45 * (PI / 90)) with (PI / 2) by field.
  rewrite ?Rminus_0_r.
  rewrite ?sin_0, ?cos_0, ?sin_PI2, ?cos_PI2, ?cos_PI, ?Rminus_0_r, ?sin_0.
  rewrite ?Rabs_R0, ?Rabs_R1.
  assert (Hs1 : 0 < sin 1) by (apply sin_gt_0; lra).
  rewrite (Rabs_pos_eq (sin 1)) by lra.
  rewrite !Rmult_0_l.
  repeat split; lra.
Qed.

(** ** The custom functions of the point [(x, y, z)] *)



Lemma exp_le (a b : R) : a <= b -> exp a <= exp b.
Proof.
  intros [Hab | ->]; [left; apply exp_increasing; exact Hab | right; reflexivity].
Qed.



(** Abstraction of the sines and cosines of a goal, with their bounds. *)
Ltac trig_bounds :=
  repeat match goal with
  | |- context [cos ?u] =>
      let c := fresh "c" in
      let H := fresh "Hc" in
      pose proof (COS_bound u) as H; set (c := cos u) in *; clearbody c
  | |- context [sin ?u] =>
      let s := fresh "s" in
      let H := fresh "Hs" in
      pose proof (SIN_bound u) as H; set (s := sin u) in *; clearbody s
  end.

Lemma cf_f9_formula (theta phi : R) :
  let '(x, y, z) := spherical_to_xyz theta phi in
  cf_f9 theta phi
  = Rabs (x * x - y * y + 1 / 2 * x * z - 5033165 / 16777216 * y * z).
Proof.
  unfold cf_f9, spherical_to_xyz. unfold_real.
  replace (Q2R (Binary32.round 0.5)) with (1 / 2) by (f32_eval; lra).
  replace (Q2R (Binary32.round 0.3)) with (5033165 / 16777216)
    by (f32_eval; lra).
  reflexivity.
Qed.

(** X22: the entries that are an absolute value are bounded:
    [cf_f7 <= 5/2], [cf_f8 <= 3/2 + c] with [c] the value of [0.3f],
    [cf_f9 <= 5/4] and [cf_f11 <= 2]; none is negative. *)
Theorem absolute_entries_range (theta phi : R) :
  0 <= cf_f7 theta phi <= 5 / 2
  /\ 0 <= cf_f8 theta phi <= 3 / 2 + 5033165 / 16777216
  /\ 0 <= cf_f9 theta phi <= 5 / 4
  /\ 0 <= cf_f11 theta phi <= 2.
Proof.
  split; [| split; [| split]].
  - unfold cf_f7, spherical_to_xyz. unfold_real.
    replace (Q2R (Binary32.round 0.5)) with (1 / 2) by (f32_eval; lra).
    split; [apply Rabs_pos |]. apply Rabs_le.
    pose proof (COS_bound theta) as [Hz1 Hz2].
    set (z := cos theta) in *.
    assert (Hzz : 0 <= z * z <= 1) by nra. clearbody z.
    trig_bounds. split; nra.
  - unfold cf_f8, spherical_to_xyz. unfold_real.
    replace (Q2R (Binary32.round 0.5)) with (1 / 2) by (f32_eval; lra).
    replace (Q2R (Binary32.round 0.3)) with (5033165 / 16777216)
      by (f32_eval; lra).
    split; [apply Rabs_pos |]. apply Rabs_le.
    pose proof (COS_bound theta) as [Hz1 Hz2].
    set (z := cos theta) in *.
    assert (Hzz : 0 <= z * z <= 1) by nra.
    pose proof (SIN_bound (Q2R (Binary32.round 2.0) * (sin theta * cos phi)))
      as [Ha1 Ha2].
    pose proof (COS_bound (Q2R (Binary32.round 3.0) * (sin theta * sin phi)))
      as [Hb1 Hb2].
    pose proof (SIN_bound (Q2R (Binary32.round 5.0) * (sin theta * cos phi)))
      as [Hd1 Hd2].
    pose proof (COS_bound (Q2R (Binary32.round 4.0) * z)) as [He1 He2].
    set (a := sin (Q2R (Binary32.round 2.0) * (sin theta * cos phi))) in *.
    set (b := cos (Q2R (Binary32.round 3.0) * (sin theta * sin phi))) in *.
    set (d := sin (Q2R (Binary32.round 5.0) * (sin theta * cos phi))) in *.
    set (e := cos (Q2R (Binary32.round 4.0) * z)) in *.
    clearbody a b d e z.
    assert (Hab : - 1 <= a * b <= 1) by nra.
    assert (Hde : - 1 <= d * e <= 1) by nra.
    split; nra.
  - pose proof (cf_f9_formula theta phi) as Hf.
    pose proof (unit_sphere theta phi) as Hs.
    unfold spherical_to_xyz in Hf. cbv beta iota zeta in Hf. rewrite Hf.
    unfold_real.
    set (x := sin theta * cos phi) in *. set (y := sin theta * sin phi) in *.
    set (z := cos theta) in *. clearbody x y z.
    split; [apply Rabs_pos |]. apply Rabs_le.
    pose proof (Rle_0_sqr (x - z)) as H1. pose proof (Rle_0_sqr (x + z)) as H2.
    pose proof (Rle_0_sqr (y - z)) as H3. pose proof (Rle_0_sqr (y + z)) as H4.
    pose proof (Rle_0_sqr x) as H5. pose proof (Rle_0_sqr y) as H6.
    pose proof (Rle_0_sqr z) as H7.
    unfold Rsqr in *. split; nra.
  - unfold cf_f11, spherical_to_xyz. unfold_real.
    split; [apply Rabs_pos |]. apply Rabs_le.
    pose proof (SIN_bound (Q2R (Binary32.round 10.0) * (sin theta * cos phi)))
      as [Ha1 Ha2].
    pose proof (COS_bound (Q2R (Binary32.round 12.0) * (sin theta * sin phi)))
      as [Hb1 Hb2].
    pose proof (SIN_bound (Q2R (Binary32.round 15.0) * cos theta))
      as [Hd1 Hd2].
    pose proof (COS_bound (Q2R (Binary32.round 20.0) * (sin theta * cos phi)))
      as [He1 He2].
    set (a := sin (Q2R (Binary32.round 10.0) * (sin theta * cos phi))) in *.
    set (b := cos (Q2R (Binary32.round 12.0) * (sin theta * sin phi))) in *.
    set (d := sin (Q2R (Binary32.round 15.0) * cos theta)) in *.
    set (e := cos (Q2R (Binary32.round 20.0) * (sin theta * cos phi))) in *.
    clearbody a b d e.
    assert (Hab : - 1 <= a * b <= 1) by nra.
    assert (Habd : - 1 <= a * b * d <= 1) by nra.
    split; lra.
Qed.

(** X23: [cf_f12] lies in [[- c, 6 + c]] with [c] the value of [0.2f],
    and [cf_f13] in [[exp (-2) - c', exp 2 + c']] with [c'] the value of
    [0.3f]; in particular [cf_f13] is above [-1/3]. *)
Theorem cf_f12_f13_range (theta phi : R) :
  - (13421773 / 67108864) <= cf_f12 theta phi <= 6 + 13421773 / 67108864
  /\ exp (- 2) - 5033165 / 16777216 <= cf_f13 theta phi
     <= exp 2 + 5033165 / 16777216
  /\ - (1 / 3) < cf_f13 theta phi.
Proof.
  assert (H13 : exp (- 2) - 5033165 / 16777216 <= cf_f13 theta phi
                <= exp 2 + 5033165 / 16777216).
  { unfold cf_f13, spherical_to_xyz. unfold_real.
    replace (Q2R (Binary32.round 0.3)) with (5033165 / 16777216)
      by (f32_eval; lra).
    pose proof (SIN_bound (Q2R (Binary32.round 5.0) * (sin theta * cos phi)))
      as [Ha1 Ha2].
    pose proof (COS_bound (Q2R (Binary32.round 6.0) * (sin theta * sin phi)))
      as [Hb1 Hb2].
    pose proof (SIN_bound (Q2R (Binary32.round 10.0) * cos theta))
      as [Hd1 Hd2].
    set (a := sin (Q2R (Binary32.round 5.0) * (sin theta * cos phi))) in *.
    set (b := cos (Q2R (Binary32.round 6.0) * (sin theta * sin phi))) in *.
    set (d := sin (Q2R (Binary32.round 10.0) * cos theta)) in *.
    clearbody a b d.
    pose proof (exp_le (- 2) (- a - b) ltac:(lra)) as He1.
    pose proof (exp_le (- a - b) 2 ltac:(lra)) as He2.
    split; lra. }
  split; [| split; [exact H13 |]].
  - unfold cf_f12, spherical_to_xyz. unfold_real.
    replace (Q2R (Binary32.round 0.2)) with (13421773 / 67108864)
      by (f32_eval; lra).
    replace (Q2R (Binary32.round 3.0)) with 3 by (f32_eval; lra).
    trig_bounds. split; lra.
  - destruct H13 as [Hlo _]. pose proof (exp_pos (- 2)). lra.
Qed.

(** ** Undefined angles *)

Lemma reegar_f2_total : total_on_reals reegar_f2 reegar_f2.
Proof. total. Qed.

Lemma reegar_f3_total : total_on_reals reegar_f3 reegar_f3.
Proof. total. Qed.

Lemma cf_f3_total : total_on_reals cf_f3 cf_f3.
Proof. total. Qed.

Ltac unfold_entries :=
  cbv delta [fornberg_f1 fornberg_f4 beentjes_f3 beentjes_f4 beentjes_f5
             renka_f3 renka_f4 renka_f5 reegar_f3 bellet_f4 reegar_f2
             reegar_f4 franke cf_f1 cf_f2 cf_f3 cf_f4 cf_f5 cf_f6 cf_f7
             cf_f8 cf_f9 cf_f10 cf_f11 cf_f12 cf_f13 cf_f14 cf_15
             spherical_to_xyz dot F_PI F_PI_2 sgn];
  cbv beta zeta.

Ltac undefined a :=
  destruct a; unfold_entries; unfold_partial;
  repeat (defined_step; unfold_partial);
  try reflexivity.

Ltac swallowed a :=
  undefined a; cbn [Z.b2z Z.sub Z.add Z.opp];
  repeat (defined_step; unfold_partial);
  f_equal; f32_eval; lra.

(** X24: over the partial reals an undefined angle, which like a NaN
    propagates through arithmetic and compares false, is not always
    propagated.  The four entries with a jump return their middle value,
    because [sgn] is [0] on an undefined argument; [cf_f3] ignores
    [theta]; the three functions of Reegar read [z] only and ignore
    [phi].  Every other entry is undefined as soon as an angle it reads
    is. *)
Theorem undefined_angles (a : PReal) (theta phi : R) :
  (fornberg_f4 None a = Some (1 / 9) /\ fornberg_f4 a None = Some (1 / 9)
   /\ beentjes_f4 None a = Some (1 / 9) /\ beentjes_f4 a None = Some (1 / 9)
   /\ beentjes_f5 None a = Some (1 / 9) /\ beentjes_f5 a None = Some (1 / 9)
   /\ bellet_f4 None a = Some (1 / 2) /\ bellet_f4 a None = Some (1 / 2))
  /\ cf_f3 None (Some phi) = Some (cf_f3 theta phi)
  /\ (reegar_f2 (Some theta) None = Some (reegar_f2 theta phi)
      /\ reegar_f3 (Some theta) None = Some (reegar_f3 theta phi)
      /\ reegar_f4 (Some theta) None = Some (reegar_f4 theta phi))
  /\ Forall (fun f : PReal -> PReal -> PReal => f None a = None)
       [ fornberg_f1; beentjes_f3; renka_f3; renka_f4; renka_f5; reegar_f3;
         reegar_f2; reegar_f4; franke; cf_f1; cf_f2; cf_f4; cf_f5; cf_f6;
         cf_f7; cf_f8; cf_f9; cf_f10; cf_f11; cf_f12; cf_f13; cf_f14; cf_15 ]
  /\ Forall (fun f : PReal -> PReal -> PReal => f a None = None)
       [ fornberg_f1; beentjes_f3; renka_f3; renka_f4; renka_f5; franke;
         cf_f1; cf_f2; cf_f3; cf_f4; cf_f5; cf_f6; cf_f7; cf_f8; cf_f9;
         cf_f10; cf_f11; cf_f12; cf_f13; cf_f14; cf_15 ].
Proof.
  split; [| split; [| split; [| split]]].
  - repeat split; swallowed a.
  - rewrite <- (cf_f3_total theta phi). reflexivity.
  - rewrite <- (reegar_f2_total theta phi), <- (reegar_f3_total theta phi),
      <- (reegar_f4_total theta phi).
    repeat split; reflexivity.
  - repeat apply Forall_cons; try apply Forall_nil; undefined a.
  - repeat apply Forall_cons; try apply Forall_nil; undefined a.
Qed.

(** ** The coordinate transform as a chart of the sphere *)

(** A unit vector of the plane has an angle in [[-pi, pi]]. *)
Lemma angle_of_unit_vector (u v : R) :
  u * u + v * v = 1 ->
  exists phi : R, - PI <= phi <= PI /\ cos phi = u /\ sin phi = v.
Proof.
  intros Huv.
  assert (Hu : - 1 <= u <= 1) by (split; nra).
  pose proof (acos_bound u) as [Ha1 Ha2].
  assert (Hsin : sin (acos u) = Rabs v).
  { rewrite sin_acos by exact Hu. rewrite <- sqrt_Rsqr_abs. f_equal.
    unfold Rsqr. lra. }
  destruct (Rle_lt_dec 0 v) as [Hv | Hv].
  - exists (acos u). split; [lra |]. split; [apply cos_acos, Hu |].
    rewrite Hsin. apply Rabs_pos_eq, Hv.
  - exists (- acos u). split; [lra |]. split.
    + rewrite cos_neg. apply cos_acos, Hu.
    + rewrite sin_neg, Hsin, Rabs_left by exact Hv. ring.
Qed.

Lemma xyz_onto (x y z : R) :
  x * x + y * y + z * z = 1 ->
  exists theta phi : R,
    0 <= theta <= PI /\ - PI <= phi <= PI
    /\ spherical_to_xyz theta phi = (x, y, z).
Proof.
  intros Hs.
  assert (Hz : - 1 <= z <= 1) by (split; nra).
  pose proof (acos_bound z) as Hth.
  pose proof PI_RGT_0 as Hpi.
  assert (Hsin : sin (acos z) = sqrt (x * x + y * y)).
  { rewrite sin_acos by exact Hz. f_equal. unfold Rsqr. lra. }
  assert (Hxy : 0 <= x * x + y * y) by nra.
  pose proof (sqrt_pos (x * x + y * y)) as Hr0.
  pose proof (sqrt_sqrt _ Hxy) as Hrr.
  set (r := sqrt (x * x + y * y)) in *.
  destruct (Req_dec_T r 0) as [Hr | Hr].
  - exists (acos z), 0. split; [exact Hth |]. split; [lra |].
    unfold spherical_to_xyz. unfold_real.
    rewrite Hsin, Hr, cos_acos by exact Hz.
    rewrite Hr in Hrr.
    assert (x = 0) by nra. assert (y = 0) by nra. subst x y.
    apply f_equal2; [apply f_equal2 |]; ring.
  - destruct (angle_of_unit_vector (x / r) (y / r)) as (phi & Hphi & Hc & Hsn).
    { replace (x / r * (x / r) + y / r * (y / r))
        with ((x * x + y * y) / (r * r)) by (field; exact Hr).
      rewrite <- Hrr. field. exact Hr. }
    exists (acos z), phi. split; [exact Hth |]. split; [exact Hphi |].
    unfold spherical_to_xyz. unfold_real.
    rewrite Hsin, Hc, Hsn, cos_acos by exact Hz.
    apply f_equal2; [apply f_equal2 |]; try reflexivity; field; exact Hr.
Qed.

(** X25: the coordinate transform reaches every point of the unit
    sphere, with a polar angle in [[0, pi]] and an azimuthal angle in
    [[-pi, pi]]. *)
Theorem spherical_to_xyz_onto (x y z : R) :
  x * x + y * y + z * z = 1 ->
  exists theta phi : R,
    0 <= theta <= PI /\ - PI <= phi <= PI
    /\ spherical_to_xyz theta phi = (x, y, z).
Proof. exact (xyz_onto x y z). Qed.

Lemma spherical_to_xyz_onto_witness :
  exists theta phi : R,
    0 <= theta <= PI /\ - PI <= phi <= PI
    /\ spherical_to_xyz theta phi = (3 / 5, 0, 4 / 5).
Proof. apply (spherical_to_xyz_onto (3 / 5) 0 (4 / 5)). lra. Defined.

Lemma azimuth_unique (phi phi' : R) :
  0 <= phi < 2 * PI -> 0 <= phi' < 2 * PI ->
  cos phi = cos phi' -> sin phi = sin phi' -> phi = phi'.
Proof.
  intros Hp Hp' Hc Hs.
  pose proof PI_RGT_0 as Hpi.
  destruct (Rle_lt_dec phi PI) as [H1 | H1];
    destruct (Rle_lt_dec phi' PI) as [H2 | H2].
  - apply cos_inj; [lra | lra | exact Hc].
  - pose proof (sin_ge_0 phi ltac:(lra) H1) as Hge.
    pose proof (sin_lt_0 phi' H2 ltac:(lra)) as Hlt. lra.
  - pose proof (sin_ge_0 phi' ltac:(lra) H2) as Hge.
    pose proof (sin_lt_0 phi H1 ltac:(lra)) as Hlt. lra.
  - assert (Heq : 2 * PI - phi = 2 * PI - phi'); [| lra].
    apply cos_inj; [lra | lra |].
    rewrite <- (cos_neg phi), <- (cos_neg phi') in Hc.
    rewrite <- (cos_2PI_shift (- phi)), <- (cos_2PI_shift (- phi')) in Hc.
    replace (2 * PI - phi) with (- phi + 2 * PI) by ring.
    replace (2 * PI - phi') with (- phi' + 2 * PI) by ring.
    exact Hc.
Qed.

(** X26: away from the poles the angles are coordinates: two pairs with
    polar angles in [(0, pi)] and azimuthal angles in [[0, 2 pi)] that
    the transform sends to the same point are equal. *)
Theorem spherical_to_xyz_injective (theta phi theta' phi' : R) :
  0 < theta < PI -> 0 < theta' < PI ->
  0 <= phi < 2 * PI -> 0 <= phi' < 2 * PI ->
  spherical_to_xyz theta phi = spherical_to_xyz theta' phi' ->
  theta = theta' /\ phi = phi'.
Proof.
  intros Ht Ht' Hp Hp' Heq.
  unfold spherical_to_xyz in Heq. unfold_real.
  injection Heq as Hx Hy Hz.
  assert (Hth : theta = theta') by (apply cos_inj; [lra | lra | exact Hz]).
  subst theta'. split; [reflexivity |].
  pose proof (sin_gt_0 theta ltac:(lra) ltac:(lra)) as Hsin.
  apply azimuth_unique; try assumption.
  - apply (Rmult_eq_reg_l (sin theta)); [exact Hx | lra].
  - apply (Rmult_eq_reg_l (sin theta)); [exact Hy | lra].
Qed.

Lemma spherical_to_xyz_injective_witness : 1 = 1 /\ 2 = 2.
Proof.
  pose proof PI_bounds as [Plo Pup].
  apply (spherical_to_xyz_injective 1 2 1 2);
    [split; lra | split; lra | split; lra | split; lra | reflexivity].
Defined.

(** ** The sign helper on [int] *)

(** X27: instantiated at [int], [sgn] is the usual signum. *)
Theorem sgn_int (v : Z) : sgn v = Z.sgn v.
Proof.
  unfold sgn. cbn [lt T0 Int_Ordered].
  destruct v as [| p | p]; reflexivity.
Qed.

(** ** The constants of the header *)

Lemma F_INV_PI_value : F_INV_PI = 10680707 / 33554432.
Proof. unfold F_INV_PI. unfold_real. f32_eval. lra. Qed.

Lemma F_INV_TWOPI_value : F_INV_TWOPI = 10680707 / 67108864.
Proof. unfold F_INV_TWOPI. unfold_real. f32_eval. lra. Qed.

(** X28: the four constants are binary32 numbers: [F_PI_2] is exactly
    half of [F_PI] and [F_INV_TWOPI] exactly half of [F_INV_PI]; [F_PI]
    is above pi and [F_INV_PI] below its inverse; and [F_INV_PI] is not
    the inverse of [F_PI]: their product is below [1], by less than
    [1e-7]. *)
Theorem header_constants :
  F_PI_2 = F_PI / 2
  /\ F_INV_TWOPI = F_INV_PI / 2
  /\ PI < F_PI < PI + 1 / 10000000
  /\ / PI - 1 / 10000000 < F_INV_PI < / PI
  /\ 1 - 1 / 10000000 < F_PI * F_INV_PI < 1.
Proof.
  pose proof PI_bounds as [Plo Pup].
  rewrite F_PI_2_value, F_INV_TWOPI_value, F_INV_PI_value, F_PI_value.
  split; [lra |]. split; [lra |]. split; [lra |].
  split; [| lra].
  assert (Hinv : / PI * PI = 1) by (apply Rinv_l; lra).
  assert (Hpos : 0 < / PI) by (apply Rinv_0_lt_compat; lra).
  split; nra.
Qed.

(** ** Fornberg's first function *)

Lemma quartic_lower (x : R) : 1 / 2 <= 1 + x + x * x * x * x.
Proof.
  pose proof (Rle_0_sqr (x * x - 2 / 5)) as H1.
  pose proof (Rle_0_sqr (x + 5 / 8)) as H2.
  unfold Rsqr in H1, H2. nra.
Qed.

Lemma odd_part_lower (x y : R) :
  x * x + y * y <= 1 -> - (1 / 4) <= y * y + x * x * y + y * y * y * y * y.
Proof.
  intros Hxy.
  assert (Hx : 0 <= x * x) by nra.
  assert (Hy : - 1 <= y <= 1) by (split; nra).
  destruct (Rle_lt_dec 0 y) as [Hpos | Hneg].
  - assert (0 <= y * y * y * y * y).
    { replace (y * y * y * y * y) with ((y * y) * (y * y) * y) by ring.
      apply Rmult_le_pos; [nra | exact Hpos]. }
    nra.
  - set (t := - y). assert (Ht : 0 < t <= 1) by (unfold t; lra).
    replace y with (- t) in * by (unfold t; ring).
    assert (Ht3 : 0 <= t * t * t) by (apply Rmult_le_pos; nra).
    assert (Ht35 : 0 <= t * t * t * (1 - t * t)) by (apply Rmult_le_pos; nra).
    pose proof (Rle_0_sqr (t - 1 / 2)) as Hsq. unfold Rsqr in Hsq.
    assert (Hxt : x * x * t <= (1 - t * t) * t) by nra.
    nra.
Qed.

(** X29: [fornberg_f1] is positive on the whole sphere: it lies in
    [[1/4, 17/4]]. *)
Theorem fornberg_f1_range (theta phi : R) :
  1 / 4 <= fornberg_f1 theta phi <= 17 / 4.
Proof.
  pose proof (unit_sphere theta phi) as Hs.
  unfold fornberg_f1, spherical_to_xyz. unfold_real. f32_eval.
  set (x := sin theta * cos phi) in *. set (y := sin theta * sin phi) in *.
  set (z := cos theta) in *. clearbody x y z.
  assert (Hxx : 0 <= x * x <= 1) by nra.
  assert (Hyy : 0 <= y * y <= 1) by nra.
  assert (Hzz : 0 <= z * z <= 1) by nra.
  assert (Hxy : x * x + y * y <= 1) by nra.
  assert (Hx : - 1 <= x <= 1) by (split; nra).
  assert (Hy : - 1 <= y <= 1) by (split; nra).
  pose proof (quartic_lower x) as Hq.
  pose proof (odd_part_lower x y Hxy) as Ho.
  assert (Hp : 0 <= x * x * y * y * z * z).
  { replace (x * x * y * y * z * z) with ((x * x) * (y * y) * (z * z)) by ring.
    apply Rmult_le_pos; [apply Rmult_le_pos |]; lra. }
  split; [lra |].
  assert (Hx4 : x * x * x * x <= x * x) by nra.
  assert (Hxxy : x * x * y <= x * x) by nra.
  assert (Hy5 : y * y * y * y * y <= y * y).
  { assert (y * y * y <= 1) by nra.
    replace (y * y * y * y * y) with ((y * y) * (y * y * y)) by ring. nra. }
  assert (Hpp : x * x * y * y * z * z <= 1 / 4).
  { pose proof (Rle_0_sqr (x * x - y * y)) as Hd. unfold Rsqr in Hd.
    assert (Hxy4 : x * x * y * y <= 1 / 4) by nra.
    assert (0 <= x * x * y * y) by nra.
    replace (x * x * y * y * z * z) with ((x * x * y * y) * (z * z)) by ring.
    nra. }
  lra.
Qed.

(** ** The smooth counterpart of the jump *)

Lemma tanh_sign (u : R) :
  (0 < u -> 0 < tanh u) /\ (u = 0 -> tanh u = 0) /\ (u < 0 -> tanh u < 0).
Proof.
  pose proof (cosh_pos u) as Hc.
  assert (Hi : 0 < / cosh u) by (apply Rinv_0_lt_compat; exact Hc).
  unfold tanh, Rdiv. repeat split; intros Hu.
  - pose proof (sinh_lt 0 u Hu) as Hs. rewrite sinh_0 in Hs. nra.
  - subst u. rewrite sinh_0. ring.
  - pose proof (sinh_lt u 0 Hu) as Hs. rewrite sinh_0 in Hs. nra.
Qed.

(** X30: [beentjes_f3], the smooth counterpart of [fornberg_f4], lies in
    [[0, 2/9]], between the outer values of the jump, and outside the
    band of half-width [1e-5] around the jump it is on the same side of
    [1/9] as [fornberg_f4]: below [1/9] where [x + y - z >= 1e-5], above
    where [x + y - z <= -1e-5]. *)
Theorem beentjes_f3_spec (theta phi : R) :
  0 <= beentjes_f3 theta phi <= 2 / 9
  /\ (1 / 100000 <= beentjes_f4_argument theta phi ->
      beentjes_f3 theta phi < 1 / 9 /\ fornberg_f4 theta phi = 0)
  /\ (beentjes_f4_argument theta phi <= - (1 / 100000) ->
      1 / 9 < beentjes_f3 theta phi /\ fornberg_f4 theta phi = 2 / 9).
Proof.
  rewrite beentjes_f3_formula, fornberg_f4_by_sign, beentjes_f4_argument_eq.
  set (r := sin theta * cos phi + sin theta * sin phi - cos theta).
  destruct (tanh_sign (9 * - r)) as (Hp & Hz & Hn).
  pose proof (tanh_bound (9 * - r)) as [Hlo Hup].
  split; [split; lra |].
  destruct (sgn_IZR_cases r) as [[Hr ->] | [[Hr ->] | [Hr ->]]].
  - specialize (Hp ltac:(lra)). repeat split; intros; lra.
  - specialize (Hz ltac:(lra)). repeat split; intros; lra.
  - specialize (Hn ltac:(lra)). repeat split; intros; lra.
Qed.

Lemma beentjes_f3_spec_witness :
  1 / 9 < beentjes_f3 0 0 /\ fornberg_f4 0 0 = 2 / 9.
Proof.
  apply (proj2 (proj2 (beentjes_f3_spec 0 0))).
  rewrite (proj1 (argument_at_north 0)). lra.
Defined.
